(** * responsive-ajax: request construction and response classification

    A shallow embedding of [src/ajax.js].  The module serialises form
    data and JSON payloads into XMLHttpRequest exchanges and maps the
    transport's terminal events to the settlement of a deferred.

    Conventions of the embedding.
    - A JavaScript string is a [string]: the sequence of octets of its
      UTF-8 text.  Strings holding a lone surrogate (on which the host's
      [encodeURIComponent] raises [URIError]) are outside the model.
    - A Number is carried as an integer ([Z]); the code only ever prints
      numbers, and non-integral doubles are outside the model.
    - An object is the ordered list of its own enumerable data
      properties, in enumeration order.  Its prototype is
      [Object.prototype], so [hasOwnProperty] is the built-in one and
      holds of exactly the listed keys.
    - Values are data: no functions, accessors, [toJSON] methods,
      cycles or holes, so [String] and [JSON.stringify] never raise.
    - A form is read through the DOM properties the code reads; a named
      lookup in [form.elements] yields the matching controls themselves.
    - A call that can raise returns a [completion]; a function that can
      fall off its end returns [undefined] explicitly. *)

From Stdlib Require Import List String Ascii Bool ZArith NArith Lia DecimalString.
Import ListNotations.
Open Scope string_scope.
Set Warnings "-register-all".

(* ------------------------------------------------------------------ *)
(** ** The fragment of the host language the code relies on *)

(** JavaScript values that reach the code: primitives, arrays and plain
    objects. *)
Inductive jsval : Type :=
| VUndefined
| VNull
| VBool (b : bool)
| VNum (n : Z)
| VStr (s : string)
| VArr (items : list jsval)
| VObj (props : list (string * jsval)).

(** [typeof v === 'object' && v !== null] *)
Definition is_object (v : jsval) : bool :=
  match v with
  | VArr _ | VObj _ => true
  | _ => false
  end.

(** Values that are neither arrays nor objects. *)
Definition is_scalar (v : jsval) : bool := negb (is_object v).

(** [ToBoolean]: the test of an [if (v)]. *)
Definition truthy (v : jsval) : bool :=
  match v with
  | VUndefined | VNull => false
  | VBool b => b
  | VNum n => negb (n =? 0)%Z
  | VStr s => negb (s =? "")
  | VArr _ | VObj _ => true
  end.

(** [items.join(sep)] on strings. *)
Fixpoint join (sep : string) (items : list string) : string :=
  match items with
  | [] => ""
  | [x] => x
  | x :: rest => x ++ sep ++ join sep rest
  end.

Definition string_of_Z (n : Z) : string := NilZero.string_of_int (Z.to_int n).
Definition string_of_nat (n : nat) : string := NilZero.string_of_uint (Nat.to_uint n).

(** [String(v)], the [ToString] conversion.  An array prints its items
    joined by commas, with [null] and [undefined] items printed empty. *)
Fixpoint ToString (v : jsval) : string :=
  match v with
  | VUndefined => "undefined"
  | VNull => "null"
  | VBool true => "true"
  | VBool false => "false"
  | VNum n => string_of_Z n
  | VStr s => s
  | VArr items =>
      join "," (map (fun e => match e with
                              | VUndefined | VNull => ""
                              | _ => ToString e
                              end) items)
  | VObj _ => "[object Object]"
  end.

(** Index keys ["0"], ["1"], ... paired with the items of a sequence. *)
Fixpoint indexed {A : Type} (i : nat) (items : list A) : list (string * A) :=
  match items with
  | [] => []
  | x :: rest => (string_of_nat i, x) :: indexed (S i) rest
  end.

Fixpoint chars (s : string) : list jsval :=
  match s with
  | EmptyString => []
  | String c rest => VStr (String c EmptyString) :: chars rest
  end.

(** The pairs [(k, object[k])] visited by
    [for (k in object) if (object.hasOwnProperty(k))], in order. *)
Definition own_props (object : jsval) : list (string * jsval) :=
  match object with
  | VObj props => props
  | VArr items => indexed 0 items
  | VStr s => indexed 0 (chars s)
  | _ => []
  end.

(** *** URI component encoding *)

Definition in_range (lo hi : N) (c : ascii) : bool :=
  ((lo <=? N_of_ascii c) && (N_of_ascii c <=? hi))%N.

(** Characters [encodeURIComponent] leaves alone: letters, digits and
    [- _ . ! ~ * ' ( )]. *)
Definition uriUnreserved (c : ascii) : bool :=
  in_range 65 90 c || in_range 97 122 c || in_range 48 57 c
  || existsb (Ascii.eqb c) ["-"; "_"; "."; "!"; "~"; "*"; "'"; "("; ")"]%char.

Definition hexDigit (n : N) : ascii :=
  if (n <? 10)%N then ascii_of_N (48 + n) else ascii_of_N (55 + n).

Definition percentEscape (c : ascii) : string :=
  String "%" (String (hexDigit (N_of_ascii c / 16))
                     (String (hexDigit (N_of_ascii c mod 16)) EmptyString)).

Definition encodeChar (c : ascii) : string :=
  if uriUnreserved c then String c EmptyString else percentEscape c.

Fixpoint encodeURIComponent (s : string) : string :=
  match s with
  | EmptyString => EmptyString
  | String c rest => encodeChar c ++ encodeURIComponent rest
  end.

Definition hexValue (c : ascii) : option N :=
  if in_range 48 57 c then Some (N_of_ascii c - 48)%N
  else if in_range 65 70 c then Some (N_of_ascii c - 55)%N
  else if in_range 97 102 c then Some (N_of_ascii c - 87)%N
  else None.

(** [decodeURIComponent] on octets: every [%XY] becomes the octet it
    names; a [%] not followed by two hex digits is a [URIError]
    ([None]). *)
Fixpoint decodeURIComponent (s : string) : option string :=
  match s with
  | EmptyString => Some EmptyString
  | String "%" (String a (String b rest)) =>
      match hexValue a, hexValue b, decodeURIComponent rest with
      | Some x, Some y, Some r => Some (String (ascii_of_N (16 * x + y)) r)
      | _, _, _ => None
      end
  | String "%" _ => None
  | String c rest =>
      match decodeURIComponent rest with
      | Some r => Some (String c r)
      | None => None
      end
  end.

(** *** JSON text *)

Definition dquote : ascii := "034"%char.
Definition backslash : ascii := "092"%char.

Definition lowerHexDigit (n : N) : ascii :=
  if (n <? 10)%N then ascii_of_N (48 + n) else ascii_of_N (87 + n).

(** One character of [QuoteJSONString]. *)
Definition quoteChar (c : ascii) : string :=
  let n := N_of_ascii c in
  if (n =? 34)%N then String backslash (String dquote EmptyString)
  else if (n =? 92)%N then String backslash (String backslash EmptyString)
  else if (n =? 8)%N then String backslash "b"
  else if (n =? 9)%N then String backslash "t"
  else if (n =? 10)%N then String backslash "n"
  else if (n =? 12)%N then String backslash "f"
  else if (n =? 13)%N then String backslash "r"
  else if (n <? 32)%N then
    String backslash
      ("u00" ++ String (lowerHexDigit (n / 16))
                       (String (lowerHexDigit (n mod 16)) EmptyString))
  else String c EmptyString.

Fixpoint quoteBody (s : string) : string :=
  match s with
  | EmptyString => EmptyString
  | String c rest => quoteChar c ++ quoteBody rest
  end.

Definition quoteJSON (s : string) : string :=
  String dquote (quoteBody s ++ String dquote EmptyString).

(** [JSON.stringify(v)] with no replacer and no indentation; [None] is
    the result [undefined].  An [undefined] property is left out of an
    object and printed [null] inside an array. *)
Fixpoint JSON_stringify (v : jsval) : option string :=
  match v with
  | VUndefined => None
  | VNull => Some "null"
  | VBool true => Some "true"
  | VBool false => Some "false"
  | VNum n => Some (string_of_Z n)
  | VStr s => Some (quoteJSON s)
  | VArr items =>
      Some ("[" ++ join "," (map (fun e => match JSON_stringify e with
                                          | Some t => t
                                          | None => "null"
                                          end) items) ++ "]")
  | VObj props =>
      Some ("{" ++ join "," (flat_map (fun p => match JSON_stringify (snd p) with
                                                | Some t => [quoteJSON (fst p) ++ ":" ++ t]
                                                | None => []
                                                end) props) ++ "}")
  end.

(** *** Facilities that differ between hosts *)

(** What the code reads from its environment without defining it:
    whether the global [FormData] exists, the JSON parser ([None] when
    [JSON.parse] raises [SyntaxError]) and [String.prototype.toUpperCase]. *)
Record Host : Type := {
  FormData_defined : bool;
  JSON_parse : string -> option jsval;
  toUpperCase : string -> string
}.

(** Exceptions the code can run into. *)
Inductive exn : Type := TypeError | ReferenceError.

Inductive completion (A : Type) : Type :=
| Normal (a : A)
| Throw (e : exn).
Arguments Normal {A} a.
Arguments Throw {A} e.

Definition bind {A B : Type} (c : completion A) (k : A -> completion B) : completion B :=
  match c with
  | Normal a => k a
  | Throw e => Throw e
  end.

Notation "x <- c ;; k" := (bind c (fun x => k))
  (at level 61, c at next level, right associativity).

(* ------------------------------------------------------------------ *)
(** ** The document: forms and their controls *)

Record HTMLOptionElement : Type := {
  selected : bool;
  optionValue : string
}.

(** A form control, read through the properties the code reads.  [value]
    and [name] are the texts [encodeURIComponent] sees. *)
Record control : Type := {
  id : string;
  name : string;
  type : string;
  value : string;
  options : list HTMLOptionElement
}.

Record HTMLFormElement : Type := {
  action : string;
  method : string;
  enctype : string;
  elements : list control
}.

(** [form.elements[key]]: the controls whose [id] or [name] is [key]
    (one element, or a [RadioNodeList] of several); [None] is
    [undefined]. *)
Definition namedItem (form : HTMLFormElement) (key : string) : option (list control) :=
  match filter (fun c => (id c =? key) || (name c =? key)) (elements form) with
  | [] => None
  | node => Some node
  end.

(** [receiver.toUpperCase()]: strings have the method, DOM nodes do not,
    and calling the missing method raises [TypeError]. *)
Definition call_toUpperCase (h : Host) (receiver : string + list control) : completion string :=
  match receiver with
  | inl s => Normal (toUpperCase h s)
  | inr _ => Throw TypeError
  end.

(* ------------------------------------------------------------------ *)
(** ** The transport *)

(** A request entity: text, or the [FormData] built from a form. *)
Inductive body : Type :=
| Text (s : string)
| FormData (form : HTMLFormElement).

Definition body_truthy (b : body) : bool :=
  match b with
  | Text s => negb (s =? "")
  | FormData _ => true
  end.

(** [new FormData(form)]: a [ReferenceError] where the global is missing. *)
Definition new_FormData (h : Host) (form : HTMLFormElement) : completion body :=
  if FormData_defined h then Normal (FormData form) else Throw ReferenceError.

(** The calls made on an [XMLHttpRequest]: [open], then every
    [setRequestHeader] in order, then [send] ([Some None] is [send()]
    with no entity). *)
Record XMLHttpRequest : Type := {
  opened : option (string * string);
  requestHeaders : list (string * string);
  sent : option (option body)
}.

Definition new_XMLHttpRequest : XMLHttpRequest :=
  {| opened := None; requestHeaders := []; sent := None |}.

Definition open (method path : string) (req : XMLHttpRequest) : XMLHttpRequest :=
  {| opened := Some (method, path);
     requestHeaders := requestHeaders req;
     sent := sent req |}.

Definition setRequestHeader (header val : string) (req : XMLHttpRequest) : XMLHttpRequest :=
  {| opened := opened req;
     requestHeaders := (requestHeaders req ++ [(header, val)])%list;
     sent := sent req |}.

Definition send_entity (entity : option body) (req : XMLHttpRequest) : XMLHttpRequest :=
  {| opened := opened req;
     requestHeaders := requestHeaders req;
     sent := Some entity |}.

(** The terminal events of an exchange and what they do to the deferred. *)
Inductive event : Type := Load | Error | Timeout | Abort.

Inductive settlement : Type :=
| Resolved (status : Z) (responseData : jsval)
| Rejected (status : Z) (responseData : jsval) (reason : option string).

(* ------------------------------------------------------------------ *)
(** ** [src/ajax.js] *)

Definition enc : string -> string := encodeURIComponent.

(** The inner loop of [stringifyQuery]: one [qs.push] per array item. *)
Fixpoint pushItems (k : string) (items : list jsval) (qs : list string) : list string :=
  match items with
  | [] => qs
  | item :: rest =>
      pushItems k rest (List.app qs [enc k ++ "=" ++ enc (ToString item)])
  end.

(** The outer loop of [stringifyQuery] over the own properties. *)
Fixpoint pushProps (props : list (string * jsval)) (qs : list string) : list string :=
  match props with
  | [] => qs
  | (k, v) :: rest =>
      pushProps rest
        match v with
        | VArr items => pushItems k items qs
        | _ => List.app qs [enc k ++ "=" ++ enc (ToString v)]
        end
  end.

(** Use URL encoding to stringify an object. *)
Definition stringifyQuery (object : jsval) : string :=
  join "&" (pushProps (own_props object) []).

(** The listeners [makeRequest] registers on the request: how the event
    that ends the exchange settles the deferred, given [req.status] and
    [req.responseText] at that moment. *)
Definition makeRequest (h : Host) (ev : event) (req_status : Z) (responseText : string)
  : settlement :=
  match ev with
  | Load =>
      let status := if (req_status =? 1223)%Z then 204%Z else req_status in
      match (if truthy (VStr responseText)
             then JSON_parse h responseText
             else Some VNull) with
      | None => Rejected status VNull (Some "parseerror")
      | Some responseData =>
          if (400 <=? status)%Z
          then Rejected status responseData None
          else Resolved status responseData
      end
  | Error => Rejected req_status VNull None
  | Timeout => Rejected req_status VNull (Some "timeout")
  | Abort => Rejected req_status VNull (Some "abort")
  end.

(** The [for (header in headers)] loop of [sendRequest]. *)
Fixpoint setHeaders (props : list (string * jsval)) (req : XMLHttpRequest) : XMLHttpRequest :=
  match props with
  | [] => req
  | (header, v) :: rest => setHeaders rest (setRequestHeader header (ToString v) req)
  end.

(** Make and send an AJAX request, providing a raw entity.  The result
    stands for the deferred the call returns: the exchange it is bound
    to, settled later by [makeRequest]. *)
Definition sendRequest (method path : string) (headers : jsval)
    (entity : option body) (type : option string) : XMLHttpRequest :=
  let req := new_XMLHttpRequest in
  let req := open method path req in
  let req := setRequestHeader "Accept" "application/json" req in
  let req := if truthy headers then setHeaders (own_props headers) req else req in
  let req := match type with
             | Some t => if negb (t =? "") then setRequestHeader "Content-Type" t req else req
             | None => req
             end in
  match entity with
  | Some e => if body_truthy e then send_entity (Some e) req else send_entity None req
  | None => send_entity None req
  end.

(** Send a form as multipart data. *)
Definition sendMultipartForm (h : Host) (form : HTMLFormElement) : completion XMLHttpRequest :=
  method <- match namedItem form "_method" with
            | Some node =>
                m <- call_toUpperCase h (inr node) ;;
                Normal (if negb (m =? "") then m else "POST")
            | None => Normal "POST"
            end ;;
  data <- new_FormData h form ;;
  Normal (sendRequest method (action form) VNull (Some data) (Some "multipart/form-data")).

(** Send a JSON request entity. *)
Definition sendJSON (method path : string) (data headers : jsval) : XMLHttpRequest :=
  if is_object data
  then sendRequest method path headers
         (option_map Text (JSON_stringify data)) (Some "application/json")
  else sendRequest method path headers None None.

(** Send a request with optional data in the query string. *)
Definition send (method path : string) (data headers : jsval) : XMLHttpRequest :=
  let path := if is_object data then path ++ "?" ++ stringifyQuery data else path in
  sendRequest method path headers None None.

Definition putJSON (path : string) (data headers : jsval) : XMLHttpRequest :=
  sendJSON "PUT" path data headers.

Definition postJSON (path : string) (data headers : jsval) : XMLHttpRequest :=
  sendJSON "POST" path data headers.

(** [send('DELETE', path, headers)]: the third parameter of [send] is
    [data], so it receives [headers], and [send]'s own [headers] is left
    [undefined]. *)
Definition del (path : string) (data headers : jsval) : XMLHttpRequest :=
  send "DELETE" path headers VUndefined.

(** [send('GET', path, headers)], as in [del]. *)
Definition get (path : string) (data headers : jsval) : XMLHttpRequest :=
  send "GET" path headers VUndefined.

(** The loop over [element.options] of a [select-multiple] control. *)
Fixpoint appendSelected (element_name : string) (opts : list HTMLOptionElement)
    (qs : string) : string :=
  match opts with
  | [] => qs
  | o :: rest =>
      appendSelected element_name rest
        (if selected o then qs ++ enc element_name ++ "=" ++ enc (optionValue o) else qs)
  end.

(** Where the loop over the controls of [sendForm] ends: at a [file]
    control, or past the last control with the text gathered in [qs]. *)
Inductive scan : Type :=
| FileControl
| Gathered (qs : string).

Fixpoint scanElements (els : list control) (qs : string) : scan :=
  match els with
  | [] => Gathered qs
  | element :: rest =>
      if type element =? "file" then FileControl
      else if type element =? "select-multiple"
      then scanElements rest (appendSelected (name element) (options element) qs)
      else scanElements rest (qs ++ enc (name element) ++ "=" ++ enc (value element))
  end.

(** Send a form using AJAX.  [Normal None] is the call returning
    [undefined]. *)
Definition sendForm (h : Host) (form : HTMLFormElement) : completion (option XMLHttpRequest) :=
  if enctype form =? "multipart/form-data"
  then req <- sendMultipartForm h form ;; Normal (Some req)
  else
    match scanElements (elements form) "" with
    | FileControl => req <- sendMultipartForm h form ;; Normal (Some req)
    | Gathered qs =>
        method <- call_toUpperCase h
                    match namedItem form "_method" with
                    | Some node => inr node
                    | None => inl (method form)
                    end ;;
        if (method =? "POST") || (method =? "PUT")
        then Normal (Some (sendRequest method (action form) VNull (Some (Text qs))
                             (Some "application/x-www-form-urlencoded")))
        else if (method =? "DELETE") || (method =? "GET")
        then Normal (Some (sendRequest method (action form ++ "?" ++ qs)
                             VUndefined None None))
        else Normal None
    end.

(** The loop of [canSendForm]: [false] at the first [file] control,
    [undefined] when the loop runs out. *)
Fixpoint scanForFile (els : list control) : jsval :=
  match els with
  | [] => VUndefined
  | element :: rest =>
      if type element =? "file" then VBool false else scanForFile rest
  end.

(** Check whether a form can be sent. *)
Definition canSendForm (h : Host) (form : HTMLFormElement) : jsval :=
  if FormData_defined h then VBool true
  else if enctype form =? "multipart/form-data" then VBool false
  else scanForFile (elements form).

(* ------------------------------------------------------------------ *)
(** ** Reading a query string back *)

(** [s.split(sep)] for a one-character separator. *)
Fixpoint split (sep : ascii) (s : string) : list string :=
  match s with
  | EmptyString => [EmptyString]
  | String c rest =>
      if Ascii.eqb c sep then EmptyString :: split sep rest
      else match split sep rest with
           | x :: xs => String c x :: xs
           | [] => [String c EmptyString]
           end
  end.

(** The text before the first [sep] and, when there is one, the text
    after it. *)
Fixpoint cut (sep : ascii) (s : string) : string * option string :=
  match s with
  | EmptyString => (EmptyString, None)
  | String c rest =>
      if Ascii.eqb c sep then (EmptyString, Some rest)
      else let (before, after) := cut sep rest in (String c before, after)
  end.

Definition decodePair (segment : string) : option (string * string) :=
  let (k, v) := cut "=" segment in
  match decodeURIComponent k,
        decodeURIComponent match v with Some t => t | None => EmptyString end with
  | Some k', Some v' => Some (k', v')
  | _, _ => None
  end.

Fixpoint decodePairs (segments : list string) : option (list (string * string)) :=
  match segments with
  | [] => Some []
  | segment :: rest =>
      match decodePair segment, decodePairs rest with
      | Some p, Some ps => Some (p :: ps)
      | _, _ => None
      end
  end.

(** The decoder the round trip of the query encoder is stated against:
    split at [&], drop empty segments, cut each segment at its first
    [=], and percent-decode both sides. *)
Definition parseQuery (qs : string) : option (list (string * string)) :=
  decodePairs (filter (fun segment => negb (segment =? "")) (split "&" qs)).

(** What a decoder can give back for a property: its key and the text
    of its value. *)
Definition textPairs (props : list (string * jsval)) : list (string * string) :=
  map (fun p => (fst p, ToString (snd p))) props.

(** [k=v] segments joined by [&], as [application/x-www-form-urlencoded]
    has them. *)
Definition urlencodedPairs (pairs : list (string * string)) : string :=
  join "&" (map (fun p => enc (fst p) ++ "=" ++ enc (snd p)) pairs).

(** The name/value pairs of the controls, in control order: one per
    selected option of a [select-multiple], one for any other control. *)
Definition controlPairs (els : list control) : list (string * string) :=
  flat_map (fun element =>
              if type element =? "select-multiple"
              then map (fun o => (name element, optionValue o))
                       (filter selected (options element))
              else [(name element, value element)]) els.

(** A form that [sendForm] hands to [sendMultipartForm]. *)
Definition needsMultipart (form : HTMLFormElement) : bool :=
  (enctype form =? "multipart/form-data")
  || existsb (fun element => type element =? "file") (elements form).

(** The four methods [sendForm] has a case for. *)
Definition knownMethod (m : string) : bool :=
  (m =? "POST") || (m =? "PUT") || (m =? "DELETE") || (m =? "GET").

(* ------------------------------------------------------------------ *)
(** ** Two hosts and a few documents for worked examples *)

Definition upperChar (c : ascii) : ascii :=
  if in_range 97 122 c then ascii_of_N (N_of_ascii c - 32) else c.

Fixpoint upper (s : string) : string :=
  match s with
  | EmptyString => EmptyString
  | String c rest => String (upperChar c) (upper rest)
  end.

Definition isSpace (c : ascii) : bool :=
  existsb (N.eqb (N_of_ascii c)) [32; 9; 10; 13]%N.

Fixpoint skipSpace (s : string) : string :=
  match s with
  | EmptyString => EmptyString
  | String c rest => if isSpace c then skipSpace rest else s
  end.

Fixpoint readDigits (s : string) (acc : Z) : Z * string :=
  match s with
  | EmptyString => (acc, s)
  | String c rest =>
      if in_range 48 57 c
      then readDigits rest (10 * acc + Z.of_N (N_of_ascii c - 48))%Z
      else (acc, s)
  end.

(** An integer literal: [0], or a nonzero digit followed by digits. *)
Definition readNatural (s : string) : option (Z * string) :=
  match s with
  | String "0" rest => Some (0%Z, rest)
  | String c _ => if in_range 49 57 c then Some (readDigits s 0%Z) else None
  | EmptyString => None
  end.

(** The characters of a string literal up to its closing quote; escape
    sequences and control characters are not read. *)
Fixpoint readChars (s : string) : option (string * string) :=
  match s with
  | EmptyString => None
  | String c rest =>
      if Ascii.eqb c dquote then Some (EmptyString, rest)
      else if Ascii.eqb c backslash || (N_of_ascii c <? 32)%N then None
      else match readChars rest with
           | Some (t, rest') => Some (String c t, rest')
           | None => None
           end
  end.

(** A reader for JSON text without fractions, exponents and escape
    sequences; every call spends one unit of [fuel]. *)
Fixpoint readValue (fuel : nat) (s : string) : option (jsval * string) :=
  match fuel with
  | O => None
  | S fuel' =>
      match skipSpace s with
      | String "n" (String "u" (String "l" (String "l" rest))) => Some (VNull, rest)
      | String "t" (String "r" (String "u" (String "e" rest))) => Some (VBool true, rest)
      | String "f" (String "a" (String "l" (String "s" (String "e" rest)))) =>
          Some (VBool false, rest)
      | String "[" rest =>
          match skipSpace rest with
          | String "]" rest' => Some (VArr [], rest')
          | _ => match readItems fuel' rest with
                 | Some (items, rest') => Some (VArr items, rest')
                 | None => None
                 end
          end
      | String "{" rest =>
          match skipSpace rest with
          | String "}" rest' => Some (VObj [], rest')
          | _ => match readMembers fuel' rest with
                 | Some (props, rest') => Some (VObj props, rest')
                 | None => None
                 end
          end
      | String "-" rest =>
          match readNatural rest with
          | Some (n, rest') => Some (VNum (- n), rest')
          | None => None
          end
      | String c rest =>
          if Ascii.eqb c dquote
          then match readChars rest with
               | Some (t, rest') => Some (VStr t, rest')
               | None => None
               end
          else match readNatural (String c rest) with
               | Some (n, rest') => Some (VNum n, rest')
               | None => None
               end
      | EmptyString => None
      end
  end
with readItems (fuel : nat) (s : string) : option (list jsval * string) :=
  match fuel with
  | O => None
  | S fuel' =>
      match readValue fuel' s with
      | Some (v, rest) =>
          match skipSpace rest with
          | String "," rest' =>
              match readItems fuel' rest' with
              | Some (items, rest'') => Some (v :: items, rest'')
              | None => None
              end
          | String "]" rest' => Some ([v], rest')
          | _ => None
          end
      | None => None
      end
  end
with readMembers (fuel : nat) (s : string) : option (list (string * jsval) * string) :=
  match fuel with
  | O => None
  | S fuel' =>
      match skipSpace s with
      | String c rest =>
          if Ascii.eqb c dquote
          then match readChars rest with
               | Some (k, rest1) =>
                   match skipSpace rest1 with
                   | String ":" rest2 =>
                       match readValue fuel' rest2 with
                       | Some (v, rest3) =>
                           match skipSpace rest3 with
                           | String "," rest4 =>
                               match readMembers fuel' rest4 with
                               | Some (props, rest5) => Some ((k, v) :: props, rest5)
                               | None => None
                               end
                           | String "}" rest4 => Some ([(k, v)], rest4)
                           | _ => None
                           end
                       | None => None
                       end
                   | _ => None
                   end
               | None => None
               end
          else None
      | EmptyString => None
      end
  end.

Definition readJSON (s : string) : option jsval :=
  match readValue (2 * S (String.length s)) s with
  | Some (v, rest) => if skipSpace rest =? "" then Some v else None
  | None => None
  end.

(** A browser with [FormData]. *)
Definition modernHost : Host :=
  {| FormData_defined := true; JSON_parse := readJSON; toUpperCase := upper |}.

(** A browser without it. *)
Definition legacyHost : Host :=
  {| FormData_defined := false; JSON_parse := readJSON; toUpperCase := upper |}.

(** The text [{"error":"x"}]. *)
Definition errorBody : string :=
  "{" ++ quoteJSON "error" ++ ":" ++ quoteJSON "x" ++ "}".

Definition input (n t v : string) : control :=
  {| id := ""; name := n; type := t; value := v; options := [] |}.

Definition selectMultiple (n : string) (opts : list (bool * string)) : control :=
  {| id := ""; name := n; type := "select-multiple"; value := "";
     options := map (fun o => {| selected := fst o; optionValue := snd o |}) opts |}.

Definition urlencoded : string := "application/x-www-form-urlencoded".

(** [<form action="/items" method="post">] with two text inputs. *)
Definition twoFields : HTMLFormElement :=
  {| action := "/items"; method := "post"; enctype := urlencoded;
     elements := [input "a" "text" "1"; input "b" "text" "2"] |}.

(** A search form sent with [GET]. *)
Definition searchForm : HTMLFormElement :=
  {| action := "/find"; method := "get"; enctype := urlencoded;
     elements := [input "q" "text" "x y"] |}.

(** A [multipart/form-data] form that declares the method [get]. *)
Definition multipartGet : HTMLFormElement :=
  {| action := "/up"; method := "get"; enctype := "multipart/form-data";
     elements := [input "title" "text" "t"] |}.

(** An upload form with the default [enctype]. *)
Definition uploadForm : HTMLFormElement :=
  {| action := "/up"; method := "post"; enctype := urlencoded;
     elements := [input "title" "text" "t"; input "doc" "file" ""] |}.

(** A form shimmed with a hidden [_method] control. *)
Definition shimmedForm : HTMLFormElement :=
  {| action := "/items/1"; method := "post"; enctype := urlencoded;
     elements := [input "_method" "hidden" "DELETE"; input "a" "text" "1"] |}.

(** [<form method="dialog">]. *)
Definition dialogForm : HTMLFormElement :=
  {| action := "/close"; method := "dialog"; enctype := urlencoded;
     elements := [input "a" "text" "1"] |}.

(** A form with a multiple select. *)
Definition pickForm : HTMLFormElement :=
  {| action := "/pick"; method := "post"; enctype := urlencoded;
     elements := [selectMultiple "c" [(true, "r"); (false, "g"); (true, "b")]] |}.

(* ------------------------------------------------------------------ *)
(** ** Vocabulary of the statements *)

(** [c] occurs in [s]. *)
Fixpoint occurs (c : ascii) (s : string) : bool :=
  match s with
  | EmptyString => false
  | String d rest => Ascii.eqb d c || occurs c rest
  end.

(** The segments [stringifyQuery] joins: one per item of an array-valued
    property, one for any other property. *)
Definition querySegments (props : list (string * jsval)) : list string :=
  flat_map (fun p => match snd p with
                     | VArr items =>
                         map (fun item => enc (fst p) ++ "=" ++ enc (ToString item)) items
                     | v => [enc (fst p) ++ "=" ++ enc (ToString v)]
                     end) props.

(** The key and value text behind each of those segments. *)
Definition queryPairs (props : list (string * jsval)) : list (string * string) :=
  flat_map (fun p => match snd p with
                     | VArr items => map (fun item => (fst p, ToString item)) items
                     | v => [(fst p, ToString v)]
                     end) props.

(** The [setRequestHeader] calls made for the caller's [headers]. *)
Definition callerHeaders (headers : jsval) : list (string * string) :=
  if truthy headers
  then map (fun p => (fst p, ToString (snd p))) (own_props headers)
  else [].

(** The method a [_method] shim is meant to select: the value of the
    control of that name in upper case, else the declared method in
    upper case. *)
Definition shimmedMethod (h : Host) (form : HTMLFormElement) : string :=
  toUpperCase h match find (fun c => name c =? "_method") (elements form) with
                | Some c => value c
                | None => method form
                end.

(** The exchange left by opening [method path], announcing
    [Accept: application/json], setting [headers] after it and sending
    [entity] ([None]: nothing). *)
Definition exchange (method path : string) (headers : list (string * string))
    (entity : option body) : XMLHttpRequest :=
  {| opened := Some (method, path);
     requestHeaders := ("Accept", "application/json") :: headers;
     sent := Some entity |}.

(** The texts gathered by [sendForm], one after the other. *)
Definition gatheredText (pairs : list (string * string)) : string :=
  join "" (map (fun p => enc (fst p) ++ "=" ++ enc (snd p)) pairs).

(** A form with a control of type [file]. *)
Definition hasFileControl (form : HTMLFormElement) : bool :=
  existsb (fun element => type element =? "file") (elements form).

(** Every character of [s] passes [P]. *)
Fixpoint allChars (P : ascii -> bool) (s : string) : bool :=
  match s with
  | EmptyString => true
  | String c rest => P c && allChars P rest
  end.

(** The characters a query string is made of: the unreserved ones and
    [%], [&] and [=]. *)
Definition querySafe (c : ascii) : bool :=
  uriUnreserved c || existsb (Ascii.eqb c) ["%"; "&"; "="]%char.

(** The pairs written [name=value] one after the other, unencoded. *)
Definition rawText (pairs : list (string * string)) : string :=
  join "" (map (fun p => fst p ++ "=" ++ snd p) pairs).

(** A form with a control whose [id] or [name] is [_method]. *)
Definition hasShim (form : HTMLFormElement) : bool :=
  existsb (fun c => (id c =? "_method") || (name c =? "_method")) (elements form).

(* ================================================================== *)
(** * Properties *)

(** ** Strings *)

Lemma append_nil_r (s : string) : s ++ "" = s.
Proof. induction s as [|c s IH]; simpl; [reflexivity | now rewrite IH]. Qed.

Lemma append_assoc (a b c : string) : (a ++ b) ++ c = a ++ b ++ c.
Proof. induction a as [|x a IH]; simpl; [reflexivity | now rewrite IH]. Qed.

Lemma occurs_app (c : ascii) (a b : string) :
  occurs c (a ++ b) = occurs c a || occurs c b.
Proof.
  induction a as [|x a IH]; simpl; [reflexivity|].
  now rewrite IH, orb_assoc.
Qed.

Ltac each_octet c :=
  destruct c as [[|] [|] [|] [|] [|] [|] [|] [|]].

Lemma encodeChar_clean (c : ascii) :
  occurs "&" (encodeChar c) = false /\ occurs "=" (encodeChar c) = false.
Proof. each_octet c; split; reflexivity. Qed.

Lemma enc_clean (s : string) :
  occurs "&" (enc s) = false /\ occurs "=" (enc s) = false.
Proof.
  unfold enc; induction s as [|c s [IHa IHe]]; simpl; [split; reflexivity|].
  destruct (encodeChar_clean c) as [Ha He].
  rewrite !occurs_app, Ha, He, IHa, IHe; split; reflexivity.
Qed.

Lemma decode_encodeChar (c : ascii) (rest : string) :
  decodeURIComponent (encodeChar c ++ rest) =
  match decodeURIComponent rest with
  | Some r => Some (String c r)
  | None => None
  end.
Proof. each_octet c; reflexivity. Qed.

(** Percent-decoding undoes percent-encoding. *)
Lemma decode_enc (s : string) : decodeURIComponent (enc s) = Some s.
Proof.
  unfold enc; induction s as [|c s IH]; [reflexivity|].
  change (encodeURIComponent (String c s)) with (encodeChar c ++ encodeURIComponent s).
  now rewrite decode_encodeChar, IH.
Qed.

Lemma split_clean (sep : ascii) (x : string) :
  occurs sep x = false -> split sep x = [x].
Proof.
  induction x as [|c x IH]; simpl; [reflexivity|].
  intros H; apply orb_false_elim in H as [Hc Hx].
  now rewrite Hc, (IH Hx).
Qed.

Lemma split_app (sep : ascii) (x rest : string) :
  occurs sep x = false ->
  split sep (x ++ String sep rest) = x :: split sep rest.
Proof.
  induction x as [|c x IH]; simpl.
  - now rewrite Ascii.eqb_refl.
  - intros H; apply orb_false_elim in H as [Hc Hx].
    now rewrite Hc, (IH Hx).
Qed.

(** Splitting at the separator undoes joining, as long as no item holds
    the separator. *)
Lemma split_join (sep : ascii) (x : string) (xs : list string) :
  Forall (fun s => occurs sep s = false) (x :: xs) ->
  split sep (join (String sep "") (x :: xs)) = x :: xs.
Proof.
  revert x; induction xs as [|y ys IH]; intros x H.
  - apply split_clean; now inversion H.
  - inversion H as [|? ? Hx Hrest]; subst.
    change (join (String sep "") (x :: y :: ys))
      with (x ++ String sep (join (String sep "") (y :: ys))).
    now rewrite (split_app _ _ _ Hx), (IH y Hrest).
Qed.

Lemma cut_app (sep : ascii) (a b : string) :
  occurs sep a = false -> cut sep (a ++ String sep b) = (a, Some b).
Proof.
  induction a as [|c a IH]; simpl.
  - now rewrite Ascii.eqb_refl.
  - intros H; apply orb_false_elim in H as [Hc Ha].
    now rewrite Hc, (IH Ha).
Qed.

Lemma decodePair_enc (k v : string) :
  decodePair (enc k ++ "=" ++ enc v) = Some (k, v).
Proof.
  unfold decodePair.
  change (enc k ++ "=" ++ enc v) with (enc k ++ String "=" (enc v)).
  rewrite cut_app by apply enc_clean.
  now rewrite !decode_enc.
Qed.

Lemma decodePairs_enc (pairs : list (string * string)) :
  decodePairs (map (fun p => enc (fst p) ++ "=" ++ enc (snd p)) pairs) = Some pairs.
Proof.
  induction pairs as [|[k v] ps IH]; [reflexivity|].
  cbn [map fst snd decodePairs].
  now rewrite decodePair_enc, IH.
Qed.

Lemma segment_clean (k v : string) : occurs "&" (enc k ++ "=" ++ enc v) = false.
Proof.
  rewrite !occurs_app.
  destruct (enc_clean k) as [-> _], (enc_clean v) as [-> _]; reflexivity.
Qed.

Lemma segment_nonempty (k v : string) : (enc k ++ "=" ++ enc v =? "") = false.
Proof.
  apply String.eqb_neq; intros H.
  assert (E : occurs "=" (enc k ++ "=" ++ enc v) = true).
  { rewrite !occurs_app; simpl; now rewrite orb_true_r. }
  rewrite H in E; discriminate.
Qed.

(** ** The query encoder *)

Lemma pushItems_spec (k : string) (items : list jsval) (qs : list string) :
  pushItems k items qs =
  List.app qs (map (fun item => enc k ++ "=" ++ enc (ToString item)) items).
Proof.
  revert qs; induction items as [|item rest IH]; intros qs; simpl.
  - now rewrite app_nil_r.
  - now rewrite IH, <- app_assoc.
Qed.

(** The loops of [stringifyQuery] push the segments of the properties,
    in order, behind what was pushed before. *)
Lemma pushProps_spec (props : list (string * jsval)) (qs : list string) :
  pushProps props qs = List.app qs (querySegments props).
Proof.
  revert qs; induction props as [|[k v] rest IH]; intros qs; simpl.
  - now rewrite app_nil_r.
  - rewrite IH; unfold querySegments; simpl.
    destruct v; simpl; rewrite ?pushItems_spec, <- ?app_assoc; reflexivity.
Qed.

Lemma stringifyQuery_segments (object : jsval) :
  stringifyQuery object = join "&" (querySegments (own_props object)).
Proof. unfold stringifyQuery; now rewrite pushProps_spec. Qed.

Lemma querySegments_cons (k : string) (v : jsval) (rest : list (string * jsval)) :
  querySegments ((k, v) :: rest) =
  List.app match v with
           | VArr items => map (fun item => enc k ++ "=" ++ enc (ToString item)) items
           | _ => [enc k ++ "=" ++ enc (ToString v)]
           end (querySegments rest).
Proof. destruct v; reflexivity. Qed.

Lemma queryPairs_cons (k : string) (v : jsval) (rest : list (string * jsval)) :
  queryPairs ((k, v) :: rest) =
  List.app match v with
           | VArr items => map (fun item => (k, ToString item)) items
           | _ => [(k, ToString v)]
           end (queryPairs rest).
Proof. destruct v; reflexivity. Qed.

(** Every segment is [enc k = enc v] for one of the pairs. *)
Lemma querySegments_pairs (props : list (string * jsval)) :
  querySegments props =
  map (fun p => enc (fst p) ++ "=" ++ enc (snd p)) (queryPairs props).
Proof.
  induction props as [|[k v] rest IH]; [reflexivity|].
  rewrite querySegments_cons, queryPairs_cons, map_app, IH.
  destruct v; try reflexivity.
  now rewrite map_map.
Qed.

Lemma queryPairs_scalars (props : list (string * jsval)) :
  forallb (fun p => is_scalar (snd p)) props = true ->
  queryPairs props = textPairs props.
Proof.
  induction props as [|[k v] rest IH]; [reflexivity|].
  intros H; cbn [forallb snd] in H; apply andb_prop in H as [Hv Hrest].
  rewrite queryPairs_cons, (IH Hrest).
  destruct v; try discriminate Hv; reflexivity.
Qed.

Lemma parseQuery_urlencoded (pairs : list (string * string)) :
  parseQuery (urlencodedPairs pairs) = Some pairs.
Proof.
  unfold parseQuery, urlencodedPairs.
  destruct pairs as [|p ps]; [reflexivity|].
  set (seg := fun p : string * string => enc (fst p) ++ "=" ++ enc (snd p)).
  change (map seg (p :: ps)) with (seg p :: map seg ps).
  rewrite split_join.
  - change (seg p :: map seg ps) with (map seg (p :: ps)).
    rewrite forallb_filter_id.
    + apply decodePairs_enc.
    + apply forallb_forall; intros s Hs.
      apply in_map_iff in Hs as [[k v] [<- _]].
      unfold seg; cbn [fst snd]; now rewrite segment_nonempty.
  - change (seg p :: map seg ps) with (map seg (p :: ps)).
    apply Forall_forall; intros s Hs.
    apply in_map_iff in Hs as [[k v] [<- _]].
    apply segment_clean.
Qed.

(** Reading the query string of any object back gives the pairs behind
    its segments. *)
Lemma parseQuery_stringifyQuery (object : jsval) :
  parseQuery (stringifyQuery object) = Some (queryPairs (own_props object)).
Proof.
  rewrite stringifyQuery_segments, querySegments_pairs.
  apply parseQuery_urlencoded.
Qed.

(** ** The transport *)

Lemma setHeaders_spec (props : list (string * jsval)) (req : XMLHttpRequest) :
  setHeaders props req =
  {| opened := opened req;
     requestHeaders :=
       List.app (requestHeaders req) (map (fun p => (fst p, ToString (snd p))) props);
     sent := sent req |}.
Proof.
  revert req; induction props as [|[k v] rest IH]; intros req; simpl.
  - rewrite app_nil_r; now destruct req.
  - rewrite IH; simpl; now rewrite <- app_assoc.
Qed.

Lemma after_headers (m p : string) (headers : jsval) :
  (if truthy headers
   then setHeaders (own_props headers)
          (setRequestHeader "Accept" "application/json" (open m p new_XMLHttpRequest))
   else setRequestHeader "Accept" "application/json" (open m p new_XMLHttpRequest)) =
  {| opened := Some (m, p);
     requestHeaders := ("Accept", "application/json") :: callerHeaders headers;
     sent := None |}.
Proof.
  unfold callerHeaders; destruct (truthy headers); [|reflexivity].
  now rewrite setHeaders_spec.
Qed.

(** Without an entity and a type, [sendRequest] sends nothing but the
    [Accept] header and the caller's headers. *)
Lemma sendRequest_bare (m p : string) (headers : jsval) :
  sendRequest m p headers None None = exchange m p (callerHeaders headers) None.
Proof. unfold sendRequest; cbv zeta; now rewrite after_headers. Qed.

(** With a non-empty type and an entity that counts as present, both
    are sent. *)
Lemma sendRequest_entity (m p : string) (headers : jsval) (e : body) (t : string) :
  body_truthy e = true -> t <> "" ->
  sendRequest m p headers (Some e) (Some t) =
  exchange m p (List.app (callerHeaders headers) [("Content-Type", t)]) (Some e).
Proof.
  intros He Ht; unfold sendRequest; cbv zeta; rewrite after_headers, He.
  apply String.eqb_neq in Ht; rewrite Ht; reflexivity.
Qed.

(** [send] itself puts its [data] into the query string. *)
Lemma send_query (m p : string) (data headers : jsval) :
  is_object data = true ->
  send m p data headers =
  exchange m (p ++ "?" ++ stringifyQuery data) (callerHeaders headers) None.
Proof. intros H; unfold send; rewrite H; apply sendRequest_bare. Qed.

(** [get] and [del] never look at their [data]. *)
Lemma get_del_ignore_data (p : string) (data data' headers : jsval) :
  get p data headers = get p data' headers /\ del p data headers = del p data' headers.
Proof. split; reflexivity. Qed.

(** C1.  Claimed: [get] and [del] with an object for [data] dispatch to
    the path followed by [?] and the encoded [data], with no entity.
    The code hands [headers] to [send] where [data] belongs:
    [get('/items', {a: 1})] asks for [/items], and with headers
    [{'X-A': '1'}] for [/items?X-A=1] without setting the header, where
    the claim has [/items?a=1]. *)
Theorem get_del_lose_data :
  get "/items" (VObj [("a", VNum 1)]) VUndefined = exchange "GET" "/items" [] None
  /\ del "/items" (VObj [("a", VNum 1)]) VUndefined = exchange "DELETE" "/items" [] None
  /\ get "/items" (VObj [("a", VNum 1)]) (VObj [("X-A", VStr "1")])
     = exchange "GET" "/items?X-A=1" [] None
  /\ "/items" ++ "?" ++ stringifyQuery (VObj [("a", VNum 1)]) = "/items?a=1".
Proof. repeat split; reflexivity. Qed.

(** ** The response *)

(** C2.  On [load], with [status] the transport's status except that
    1223 reads 204: a non-empty text that is not JSON rejects with
    [status], [null] and [parseerror], whatever the status; otherwise,
    with the body parsed from the text ([null] for the empty text), a
    status of 400 or more rejects with [status] and the body and no
    reason, and a lower status resolves with [status] and the body. *)
Theorem load_event_settlement (h : Host) (req_status status : Z) (responseText : string) :
  (req_status = 1223 -> status = 204)%Z ->
  (req_status <> 1223 -> status = req_status)%Z ->
  (responseText <> "" -> JSON_parse h responseText = None ->
   makeRequest h Load req_status responseText = Rejected status VNull (Some "parseerror"))
  /\ (forall responseData : jsval,
        (responseText = "" /\ responseData = VNull)
        \/ (responseText <> "" /\ JSON_parse h responseText = Some responseData) ->
        ((400 <= status)%Z ->
         makeRequest h Load req_status responseText = Rejected status responseData None)
        /\ ((status < 400)%Z ->
            makeRequest h Load req_status responseText = Resolved status responseData)).
Proof.
  intros H1223 Hother.
  assert (Hs : (if (req_status =? 1223)%Z then 204%Z else req_status) = status).
  { destruct (Z.eqb_spec req_status 1223) as [E|E]; symmetry; auto. }
  unfold makeRequest; rewrite Hs; clear Hs H1223 Hother.
  split.
  - intros Hne Hparse; simpl.
    apply String.eqb_neq in Hne; rewrite Hne; simpl; now rewrite Hparse.
  - intros responseData [[-> ->] | [Hne Hparse]]; simpl.
    + split; intros Hst.
      * apply Z.leb_le in Hst; now rewrite Hst.
      * apply Z.leb_gt in Hst; now rewrite Hst.
    + apply String.eqb_neq in Hne; rewrite Hne; simpl; rewrite Hparse.
      split; intros Hst.
      * apply Z.leb_le in Hst; now rewrite Hst.
      * apply Z.leb_gt in Hst; now rewrite Hst.
Qed.

Lemma load_event_settlement_witness :
  makeRequest modernHost Load 1223 "" = Resolved 204 VNull
  /\ makeRequest modernHost Load 500 errorBody
     = Rejected 500 (VObj [("error", VStr "x")]) None
  /\ makeRequest modernHost Load 200 "<html>" = Rejected 200 VNull (Some "parseerror").
Proof.
  split; [|split].
  - apply (load_event_settlement modernHost 1223 204 "");
      [reflexivity | intros H; now contradiction H | left; split; reflexivity | lia].
  - apply (load_event_settlement modernHost 500 500 errorBody);
      [intros H; discriminate H | reflexivity
      | right; split; [discriminate | reflexivity] | lia].
  - apply (load_event_settlement modernHost 200 200 "<html>");
      [intros H; discriminate H | reflexivity | discriminate | reflexivity].
Defined.

(** ** JSON entities *)

(** The JSON text of an array or object exists and is not empty. *)
Lemma JSON_stringify_object (data : jsval) :
  is_object data = true ->
  exists text, JSON_stringify data = Some text /\ body_truthy (Text text) = true.
Proof.
  destruct data; try discriminate; intros _; eexists; (split; [reflexivity|]);
    reflexivity.
Qed.

(** C3.  [putJSON] and [postJSON] with an array or object for [data]
    send its JSON text as the entity, with content type
    [application/json]; with any other [data] they send no entity and
    set no content type. *)
Theorem sendJSON_entity (path : string) (data headers : jsval) :
  (is_object data = true ->
   exists text,
     JSON_stringify data = Some text
     /\ putJSON path data headers
        = exchange "PUT" path
            (List.app (callerHeaders headers) [("Content-Type", "application/json")])
            (Some (Text text))
     /\ postJSON path data headers
        = exchange "POST" path
            (List.app (callerHeaders headers) [("Content-Type", "application/json")])
            (Some (Text text)))
  /\ (is_object data = false ->
      putJSON path data headers = exchange "PUT" path (callerHeaders headers) None
      /\ postJSON path data headers = exchange "POST" path (callerHeaders headers) None).
Proof.
  unfold putJSON, postJSON, sendJSON; split; intros Hobj; rewrite Hobj.
  - destruct (JSON_stringify_object data Hobj) as (text & Htext & Htruthy).
    exists text; rewrite Htext; simpl option_map.
    repeat split; trivial; now apply sendRequest_entity.
  - split; apply sendRequest_bare.
Qed.

Lemma sendJSON_entity_witness :
  postJSON "/items" (VObj [("name", VStr "a")]) VUndefined
  = exchange "POST" "/items" [("Content-Type", "application/json")]
      (Some (Text ("{" ++ quoteJSON "name" ++ ":" ++ quoteJSON "a" ++ "}")))
  /\ putJSON "/items" VNull VUndefined = exchange "PUT" "/items" [] None.
Proof.
  split.
  - destruct (sendJSON_entity "/items" (VObj [("name", VStr "a")]) VUndefined)
      as [Hobj _].
    destruct (Hobj eq_refl) as (text & Htext & _ & Hpost).
    injection Htext as <-; exact Hpost.
  - destruct (sendJSON_entity "/items" VNull VUndefined) as [_ Hother].
    exact (proj1 (Hother eq_refl)).
Defined.

(** ** Forms *)

Lemma appendSelected_spec (n : string) (opts : list HTMLOptionElement) (qs : string) :
  appendSelected n opts qs =
  qs ++ gatheredText (map (fun o => (n, optionValue o)) (filter selected opts)).
Proof.
  revert qs; induction opts as [|o rest IH]; intros qs; simpl.
  - now rewrite append_nil_r.
  - rewrite IH; destruct (selected o); [|reflexivity].
    unfold gatheredText; cbn [map fst snd].
    set (tail := map _ (map _ (filter selected rest))).
    destruct tail as [|t ts]; cbn [join]; rewrite ?append_assoc; cbn [append];
      rewrite ?append_nil_r, ?append_assoc; reflexivity.
Qed.

Lemma gatheredText_app (a b : list (string * string)) :
  gatheredText (a ++ b)%list = gatheredText a ++ gatheredText b.
Proof.
  unfold gatheredText; induction a as [|p a IH]; [reflexivity|].
  cbn [List.app map].
  set (seg := fun p : string * string => enc (fst p) ++ "=" ++ enc (snd p)) in *.
  assert (J : forall x xs, join "" (x :: xs) = x ++ join "" xs).
  { intros x [|y ys]; cbn [join]; [now rewrite append_nil_r | reflexivity]. }
  now rewrite !J, IH, !append_assoc.
Qed.

(** Past the last control the loop of [sendForm] holds the texts
    [name=value] of the controls' pairs, with nothing between them. *)
Lemma scanElements_gathered (els : list control) (qs : string) :
  existsb (fun element => type element =? "file") els = false ->
  scanElements els qs = Gathered (qs ++ gatheredText (controlPairs els)).
Proof.
  revert qs; induction els as [|element rest IH]; intros qs H.
  - simpl; now rewrite append_nil_r.
  - cbn [existsb] in H; apply orb_false_elim in H as [Hfile Hrest].
    cbn [scanElements controlPairs flat_map]; rewrite Hfile.
    change (flat_map _ rest) with (controlPairs rest).
    rewrite gatheredText_app.
    destruct (type element =? "select-multiple").
    + now rewrite (IH _ Hrest), appendSelected_spec, append_assoc.
    + rewrite (IH _ Hrest); unfold gatheredText at 2; cbn [map join fst snd].
      now rewrite !append_assoc.
Qed.

(** A [file] control ends the loop. *)
Lemma scanElements_file (els : list control) (qs : string) :
  existsb (fun element => type element =? "file") els = true ->
  scanElements els qs = FileControl.
Proof.
  revert qs; induction els as [|element rest IH]; intros qs H; [discriminate|].
  cbn [existsb] in H; cbn [scanElements].
  destruct (type element =? "file"); [reflexivity|].
  destruct (type element =? "select-multiple"); now apply IH.
Qed.

(** Without a [_method] control and with [FormData] at hand, the
    multipart send is a [POST] of the form's [FormData]. *)
Lemma sendMultipartForm_plain (h : Host) (form : HTMLFormElement) :
  namedItem form "_method" = None ->
  FormData_defined h = true ->
  sendMultipartForm h form =
  Normal (exchange "POST" (action form) [("Content-Type", "multipart/form-data")]
            (Some (FormData form))).
Proof.
  intros Hshim Hfd; unfold sendMultipartForm, new_FormData.
  rewrite Hshim, Hfd; reflexivity.
Qed.

(** A form on the multipart path is sent by [sendMultipartForm]. *)
Lemma sendForm_multipart (h : Host) (form : HTMLFormElement) :
  needsMultipart form = true ->
  sendForm h form = (req <- sendMultipartForm h form ;; Normal (Some req)).
Proof.
  unfold needsMultipart, sendForm; intros H.
  destruct (enctype form =? "multipart/form-data"); [reflexivity|].
  now rewrite scanElements_file.
Qed.

(** A form off the multipart path with no [_method] control is sent
    according to its declared method in upper case. *)
Lemma sendForm_plain (h : Host) (form : HTMLFormElement) :
  needsMultipart form = false ->
  namedItem form "_method" = None ->
  let m := toUpperCase h (method form) in
  let qs := gatheredText (controlPairs (elements form)) in
  sendForm h form =
  Normal (if (m =? "POST") || (m =? "PUT")
          then Some (sendRequest m (action form) VNull (Some (Text qs))
                       (Some "application/x-www-form-urlencoded"))
          else if (m =? "DELETE") || (m =? "GET")
          then Some (sendRequest m (action form ++ "?" ++ qs) VUndefined None None)
          else None).
Proof.
  unfold needsMultipart, sendForm; intros H Hshim.
  apply orb_false_elim in H as [Henc Hfile].
  rewrite Henc, (scanElements_gathered _ _ Hfile), Hshim; simpl.
  destruct (_ || _); [reflexivity|]; destruct (_ || _); reflexivity.
Qed.

(** A control named [_method] stops [sendForm] on either path: the code
    calls [toUpperCase] on the control, not on its value. *)
Lemma sendForm_shim_raises (h : Host) (form : HTMLFormElement) (node : list control) :
  namedItem form "_method" = Some node ->
  sendForm h form = Throw TypeError.
Proof.
  intros Hshim; unfold sendForm, sendMultipartForm.
  destruct (enctype form =? "multipart/form-data");
    [|destruct (scanElements (elements form) "")]; rewrite Hshim; reflexivity.
Qed.

Lemma join_cons (x : string) (xs : list string) : join "" (x :: xs) = x ++ join "" xs.
Proof. destruct xs; cbn [join]; [now rewrite append_nil_r | reflexivity]. Qed.

Lemma gatheredText_clean (pairs : list (string * string)) :
  occurs "&" (gatheredText pairs) = false.
Proof.
  unfold gatheredText; induction pairs as [|[k v] ps IH]; [reflexivity|].
  cbn [map fst snd]; rewrite join_cons, occurs_app, IH, segment_clean; reflexivity.
Qed.

(** With one pair or none the gathered text is the urlencoded one; with
    more it never is, for want of the [&]. *)
Lemma gatheredText_urlencoded (pairs : list (string * string)) :
  (List.length pairs <= 1 -> gatheredText pairs = urlencodedPairs pairs)
  /\ (2 <= List.length pairs -> gatheredText pairs <> urlencodedPairs pairs).
Proof.
  split.
  - destruct pairs as [|p [|q ps]]; simpl; try reflexivity; lia.
  - destruct pairs as [|p [|q ps]]; simpl; try lia; intros _ E.
    assert (H : occurs "&" (urlencodedPairs (p :: q :: ps)) = true).
    { unfold urlencodedPairs; cbn [map join].
      rewrite occurs_app; cbn [append occurs]; rewrite Ascii.eqb_refl.
      now rewrite orb_true_r. }
    rewrite <- E, gatheredText_clean in H; discriminate.
Qed.

Lemma sendRequest_opened (m p : string) (headers : jsval) (entity : option body)
    (t : option string) :
  opened (sendRequest m p headers entity t) = Some (m, p).
Proof.
  unfold sendRequest; cbv zeta; rewrite after_headers.
  destruct t as [t|]; [destruct (negb (t =? ""))|];
    (destruct entity as [e|]; [destruct (body_truthy e)|]); reflexivity.
Qed.

(** C4.  Claimed: the entity (or query) of a non-multipart form is its
    pairs written [k=v] and joined with [&].  The loop of [sendForm]
    appends each [k=v] to what it has, with no separator: the form with
    the fields [a=1] and [b=2] is posted with the entity [a=1b=2], where
    the claim has [a=1&b=2]; the two selected options of a multiple
    select run together in the same way. *)
Theorem sendForm_runs_pairs_together :
  sendForm modernHost twoFields
  = Normal (Some (exchange "POST" "/items" [("Content-Type", urlencoded)]
                    (Some (Text "a=1b=2"))))
  /\ controlPairs (elements twoFields) = [("a", "1"); ("b", "2")]
  /\ urlencodedPairs (controlPairs (elements twoFields)) = "a=1&b=2"
  /\ sendForm modernHost pickForm
     = Normal (Some (exchange "POST" "/pick" [("Content-Type", urlencoded)]
                       (Some (Text "c=rc=b"))))
  /\ urlencodedPairs (controlPairs (elements pickForm)) = "c=r&c=b".
Proof. repeat split; reflexivity. Qed.

(** C5, as claimed, fails: a form declared [multipart/form-data] with
    the method [get] and no [_method] control is sent with [POST], not
    with its declared method in upper case. *)
Lemma multipart_ignores_declared_method :
  namedItem multipartGet "_method" = None
  /\ shimmedMethod modernHost multipartGet = "GET"
  /\ sendForm modernHost multipartGet
     = Normal (Some (exchange "POST" "/up" [("Content-Type", "multipart/form-data")]
                       (Some (FormData multipartGet)))).
Proof. repeat split; reflexivity. Qed.

(** C5, amended.  For a form with no control named (or identified as)
    [_method]: sent as multipart, where [FormData] exists, it goes out
    with [POST] whatever method it declares; sent otherwise, it goes out
    with its declared method in upper case, when that is one of [POST],
    [PUT], [DELETE] and [GET]. *)
Theorem effective_method_without_shim (h : Host) (form : HTMLFormElement) :
  namedItem form "_method" = None ->
  (needsMultipart form = true -> FormData_defined h = true ->
   exists req,
     sendForm h form = Normal (Some req) /\ opened req = Some ("POST", action form))
  /\ (needsMultipart form = false ->
      knownMethod (toUpperCase h (method form)) = true ->
      exists req path,
        sendForm h form = Normal (Some req)
        /\ opened req = Some (toUpperCase h (method form), path)).
Proof.
  intros Hshim; split.
  - intros Hmp Hfd; rewrite (sendForm_multipart _ _ Hmp).
    rewrite (sendMultipartForm_plain _ _ Hshim Hfd).
    eexists; split; reflexivity.
  - intros Hmp Hknown; rewrite (sendForm_plain _ _ Hmp Hshim); cbv zeta.
    unfold knownMethod in Hknown.
    destruct ((toUpperCase h (method form) =? "POST")
              || (toUpperCase h (method form) =? "PUT")).
    + do 2 eexists; split; [reflexivity | apply sendRequest_opened].
    + simpl in Hknown; rewrite Hknown.
      do 2 eexists; split; [reflexivity | apply sendRequest_opened].
Qed.

Lemma effective_method_without_shim_witness :
  (exists req,
     sendForm modernHost multipartGet = Normal (Some req)
     /\ opened req = Some ("POST", "/up"))
  /\ (exists req path,
        sendForm modernHost searchForm = Normal (Some req)
        /\ opened req = Some ("GET", path)).
Proof.
  split.
  - apply (effective_method_without_shim modernHost multipartGet); reflexivity.
  - apply (effective_method_without_shim modernHost searchForm); reflexivity.
Defined.

Lemma canSendForm_cases (h : Host) (form : HTMLFormElement) :
  (FormData_defined h = true -> canSendForm h form = VBool true)
  /\ (FormData_defined h = false -> needsMultipart form = true ->
      canSendForm h form = VBool false)
  /\ (FormData_defined h = false -> needsMultipart form = false ->
      canSendForm h form = VUndefined).
Proof.
  unfold canSendForm, needsMultipart; repeat split; intros Hfd; rewrite Hfd; trivial;
    destruct (enctype form =? "multipart/form-data"); simpl; trivial; try discriminate;
    induction (elements form) as [|element rest IH]; simpl; try discriminate; trivial;
    destruct (type element =? "file"); simpl; trivial; discriminate.
Qed.

(** C6.  Claimed: without [FormData], [canSendForm] is [false] for a
    multipart form or one with a file control and [true] otherwise.
    Where the claim has [true] the function runs off its end: for a
    plain form in a host without [FormData] it returns [undefined]. *)
Theorem canSendForm_falls_through :
  FormData_defined legacyHost = false
  /\ needsMultipart twoFields = false
  /\ canSendForm legacyHost twoFields = VUndefined
  /\ truthy (canSendForm legacyHost twoFields) = false.
Proof. repeat split; reflexivity. Qed.

(** C7, as claimed, fails: in a host without [FormData] a form with a
    file control is not sent at all; building the multipart body raises
    [ReferenceError]. *)
Lemma file_control_without_FormData :
  hasFileControl uploadForm = true
  /\ sendForm legacyHost uploadForm = Throw ReferenceError.
Proof. split; reflexivity. Qed.

(** C7, amended.  Where [FormData] exists, a form with a control of type
    [file] and no control named [_method] is sent as multipart, a
    [POST] of its [FormData] with content type [multipart/form-data],
    whatever its [enctype]. *)
Theorem file_control_forces_multipart (h : Host) (form : HTMLFormElement) :
  FormData_defined h = true ->
  namedItem form "_method" = None ->
  hasFileControl form = true ->
  sendForm h form =
  Normal (Some (exchange "POST" (action form)
                  [("Content-Type", "multipart/form-data")] (Some (FormData form)))).
Proof.
  intros Hfd Hshim Hfile.
  rewrite sendForm_multipart.
  - now rewrite (sendMultipartForm_plain _ _ Hshim Hfd).
  - unfold needsMultipart; unfold hasFileControl in Hfile.
    rewrite Hfile; apply orb_true_r.
Qed.

Lemma file_control_forces_multipart_witness :
  enctype uploadForm = urlencoded
  /\ sendForm modernHost uploadForm =
     Normal (Some (exchange "POST" "/up"
                     [("Content-Type", "multipart/form-data")]
                     (Some (FormData uploadForm)))).
Proof.
  split; [reflexivity|].
  apply (file_control_forces_multipart modernHost uploadForm); reflexivity.
Defined.

(** C9, as claimed, fails: a form declaring the method [dialog] is not
    refused with an error; the call completes and returns [undefined]. *)
Lemma unknown_method_raises_nothing :
  knownMethod (shimmedMethod modernHost dialogForm) = false
  /\ sendForm modernHost dialogForm = Normal None
  /\ (forall e : exn, sendForm modernHost dialogForm <> Throw e).
Proof. repeat split; try reflexivity; intros e; discriminate. Qed.

(** C9, amended.  A form off the multipart path with no control named
    [_method], whose declared method in upper case is none of [POST],
    [PUT], [DELETE] and [GET], sends no request: the call raises nothing
    and returns [undefined]. *)
Theorem unknown_method_sends_nothing (h : Host) (form : HTMLFormElement) :
  needsMultipart form = false ->
  namedItem form "_method" = None ->
  knownMethod (toUpperCase h (method form)) = false ->
  sendForm h form = Normal None.
Proof.
  intros Hmp Hshim Hknown; rewrite (sendForm_plain _ _ Hmp Hshim); cbv zeta.
  unfold knownMethod in Hknown.
  rewrite <- orb_assoc in Hknown; apply orb_false_elim in Hknown as [H1 H2].
  now rewrite H1, H2.
Qed.

Lemma unknown_method_sends_nothing_witness :
  sendForm modernHost dialogForm = Normal None.
Proof. apply (unknown_method_sends_nothing modernHost dialogForm); reflexivity. Defined.

(** ** The query string of a bag of scalars *)

(** C8, as claimed, fails: the bags [{a: null}] and [{a: 'null'}] hold
    different pairs and have the same query string, so no decoder gives
    back the pairs of both; reading [a=null] back gives the text
    [null]. *)
Lemma query_string_forgets_types :
  stringifyQuery (VObj [("a", VNull)]) = "a=null"
  /\ stringifyQuery (VObj [("a", VStr "null")]) = "a=null"
  /\ parseQuery "a=null" = Some [("a", "null")]
  /\ (forall decoded : list (string * jsval),
        (forall p, In p decoded <-> In p [("a", VNull)]) ->
        (forall p, In p decoded <-> In p [("a", VStr "null")]) -> False).
Proof.
  repeat split; try reflexivity.
  intros decoded Hnull Hstr.
  assert (H : In ("a", VNull) [("a", VStr "null")]).
  { apply Hstr, Hnull; now left. }
  destruct H as [H|[]]; discriminate H.
Qed.

(** C8, amended.  For a bag whose values are all scalars, reading the
    query string back gives, for every property in order, its key and
    the text [String] makes of its value. *)
Theorem query_round_trip_as_text (props : list (string * jsval)) :
  forallb (fun p => is_scalar (snd p)) props = true ->
  parseQuery (stringifyQuery (VObj props)) = Some (textPairs props).
Proof.
  intros Hscalar.
  rewrite parseQuery_stringifyQuery; cbn [own_props].
  now rewrite (queryPairs_scalars _ Hscalar).
Qed.

Lemma query_round_trip_as_text_witness :
  parseQuery (stringifyQuery
                (VObj [("q", VStr "x&y=z"); ("n", VNum 42); ("", VNull); ("b c", VBool true)]))
  = Some [("q", "x&y=z"); ("n", "42"); ("", "null"); ("b c", "true")].
Proof.
  apply (query_round_trip_as_text
           [("q", VStr "x&y=z"); ("n", VNum 42); ("", VNull); ("b c", VBool true)]).
  reflexivity.
Defined.

Lemma querySegments_app (a b : list (string * jsval)) :
  querySegments (a ++ b)%list = List.app (querySegments a) (querySegments b).
Proof. apply flat_map_app. Qed.

(** C10.  A property whose value is [null] or [undefined], and an item
    [null] or [undefined] of an array-valued property, is not skipped:
    the query string has a segment for it, made of the encoded key, [=]
    and the encoded text of the value; that text is [null] or
    [undefined], which encoding leaves as it stands, and reading the
    query string back finds the key paired with it. *)
Theorem null_and_undefined_are_encoded (object : jsval) (k : string) (v : jsval) :
  v = VNull \/ v = VUndefined ->
  In (k, v) (own_props object)
  \/ (exists items, In (k, VArr items) (own_props object) /\ In v items) ->
  (exists before after,
     stringifyQuery object
     = join "&" (List.app before ((enc k ++ "=" ++ enc (ToString v)) :: after)))
  /\ (exists decoded,
        parseQuery (stringifyQuery object) = Some decoded
        /\ In (k, ToString v) decoded)
  /\ (v = VNull -> ToString v = "null" /\ enc "null" = "null")
  /\ (v = VUndefined -> ToString v = "undefined" /\ enc "undefined" = "undefined").
Proof.
  intros Hv Hin; split; [|split; [|split; intros ->; split; reflexivity]].
  - rewrite stringifyQuery_segments.
    destruct Hin as [Hin | (items & Hin & Hitem)];
      apply in_split in Hin as (l1 & l2 & ->);
      rewrite querySegments_app, querySegments_cons.
    + exists (querySegments l1), (querySegments l2).
      destruct Hv as [-> | ->]; reflexivity.
    + apply in_split in Hitem as (i1 & i2 & ->).
      rewrite map_app; cbn [map].
      exists (List.app (querySegments l1)
                (map (fun item => enc k ++ "=" ++ enc (ToString item)) i1)),
             (List.app (map (fun item => enc k ++ "=" ++ enc (ToString item)) i2)
                (querySegments l2)).
      now rewrite <- !app_assoc.
  - rewrite parseQuery_stringifyQuery; eexists; split; [reflexivity|].
    unfold queryPairs; apply in_flat_map.
    destruct Hin as [Hin | (items & Hin & Hitem)].
    + exists (k, v); split; [exact Hin|].
      destruct Hv as [-> | ->]; now left.
    + exists (k, VArr items); split; [exact Hin|].
      cbn [fst snd]; apply in_map_iff; now exists v.
Qed.

Lemma null_and_undefined_are_encoded_witness :
  (exists before after,
     stringifyQuery (VObj [("a", VNum 1); ("b", VNull); ("c", VArr [VStr "x"; VUndefined])])
     = join "&" (List.app before ("b=null" :: after)))
  /\ (exists decoded,
        parseQuery
          (stringifyQuery
             (VObj [("a", VNum 1); ("b", VNull); ("c", VArr [VStr "x"; VUndefined])]))
        = Some decoded
        /\ In ("c", "undefined") decoded).
Proof.
  split.
  - apply (null_and_undefined_are_encoded
             (VObj [("a", VNum 1); ("b", VNull); ("c", VArr [VStr "x"; VUndefined])])
             "b" VNull); [now left | left; simpl; auto].
  - apply (null_and_undefined_are_encoded
             (VObj [("a", VNum 1); ("b", VNull); ("c", VArr [VStr "x"; VUndefined])])
             "c" VUndefined); [now right|].
    right; exists [VStr "x"; VUndefined]; simpl; auto.
Defined.

Example stringifyQuery_null_undefined :
  stringifyQuery (VObj [("a", VNum 1); ("b", VNull); ("c", VArr [VStr "x"; VUndefined])])
  = "a=1&b=null&c=x&c=undefined".
Proof. reflexivity. Qed.

(** ** Worked examples *)

Example no_content_resolves :
  makeRequest modernHost Load 204 "" = Resolved 204 VNull.
Proof. reflexivity. Qed.

Example transport_failures :
  makeRequest modernHost Error 0 "" = Rejected 0 VNull None
  /\ makeRequest modernHost Timeout 0 "" = Rejected 0 VNull (Some "timeout")
  /\ makeRequest modernHost Abort 0 "" = Rejected 0 VNull (Some "abort").
Proof. repeat split; reflexivity. Qed.

Example enc_space : encodeURIComponent "a b&c=d" = "a%20b%26c%3Dd".
Proof. reflexivity. Qed.

Example array_items_in_order :
  stringifyQuery (VObj [("tag", VArr [VStr "x"; VStr "y z"; VNum 3])])
  = "tag=x&tag=y%20z&tag=3".
Proof. reflexivity. Qed.

Example search_by_query :
  sendForm modernHost searchForm
  = Normal (Some (exchange "GET" "/find?q=x%20y" [] None)).
Proof. reflexivity. Qed.

Example shimmed_form_raises :
  sendForm modernHost shimmedForm = Throw TypeError.
Proof. reflexivity. Qed.

Example caller_headers_follow_accept :
  requestHeaders (putJSON "/items/1" (VObj []) (VObj [("X-Token", VStr "t")]))
  = [("Accept", "application/json"); ("X-Token", "t");
     ("Content-Type", "application/json")].
Proof. reflexivity. Qed.

(* ================================================================== *)
(** * Further properties of the code *)

(** ** Settling the deferred *)

(** X1.  The deferred is resolved only by a [load] event: the status it
    reports is below 400 and is never 1223 (it is the transport's
    status, or 204 in place of 1223), and the body is [null] for an
    empty response text and the parsed text otherwise. *)
Theorem resolved_only_on_good_load (h : Host) (ev : event) (req_status : Z)
    (responseText : string) (status : Z) (responseData : jsval) :
  makeRequest h ev req_status responseText = Resolved status responseData ->
  ev = Load
  /\ (status < 400)%Z
  /\ status <> 1223%Z
  /\ (status = req_status \/ (req_status = 1223 /\ status = 204))%Z
  /\ ((responseText = "" /\ responseData = VNull)
      \/ (responseText <> "" /\ JSON_parse h responseText = Some responseData)).
Proof.
  destruct ev; try discriminate; unfold makeRequest; cbv zeta.
  set (s := if (req_status =? 1223)%Z then 204%Z else req_status).
  assert (Hs : ((s = req_status /\ req_status <> 1223) \/ (req_status = 1223 /\ s = 204))%Z).
  { unfold s; destruct (Z.eqb_spec req_status 1223); auto. }
  simpl truthy.
  destruct (String.eqb_spec responseText "") as [E|E]; simpl negb.
  - destruct (Z.leb_spec 400 s); [discriminate|].
    intros Heq; injection Heq as <- <-.
    repeat split; auto; lia.
  - destruct (JSON_parse h responseText) as [d|] eqn:Hparse; [|discriminate].
    destruct (Z.leb_spec 400 s); [discriminate|].
    intros Heq; injection Heq as <- <-.
    repeat split; auto; lia.
Qed.

Lemma resolved_only_on_good_load_witness :
  Load = Load
  /\ (204 < 400)%Z
  /\ 204%Z <> 1223%Z
  /\ (204 = 1223 \/ (1223 = 1223 /\ 204 = 204))%Z
  /\ (("" = "" /\ VNull = VNull)
      \/ ("" <> "" /\ JSON_parse modernHost "" = Some VNull)).
Proof.
  apply (resolved_only_on_good_load modernHost Load 1223 "" 204 VNull); reflexivity.
Defined.

(** X2.  What a rejection tells: the reason [parseerror] comes only from
    a [load] whose non-empty text did not parse, [timeout] and [abort]
    only from the events of those names, with the transport's status as
    it is; a body other than [null] comes only with a [load] of status
    400 or more, no reason, and is the parsed response text. *)
Theorem rejection_tells_cause (h : Host) (ev : event) (req_status : Z)
    (responseText : string) (status : Z) (responseData : jsval) (reason : option string) :
  makeRequest h ev req_status responseText = Rejected status responseData reason ->
  (reason = Some "parseerror" ->
   ev = Load /\ responseText <> "" /\ JSON_parse h responseText = None
   /\ responseData = VNull)
  /\ (reason = Some "timeout" -> ev = Timeout /\ status = req_status)
  /\ (reason = Some "abort" -> ev = Abort /\ status = req_status)
  /\ (responseData <> VNull ->
      ev = Load /\ reason = None /\ (400 <= status)%Z
      /\ JSON_parse h responseText = Some responseData).
Proof.
  destruct ev; unfold makeRequest; cbv zeta; simpl truthy;
    [ destruct (String.eqb_spec responseText "") as [E|E]; simpl negb;
      [ | destruct (JSON_parse h responseText) as [d|] eqn:Hparse ];
      try (destruct (Z.leb_spec 400 (if (req_status =? 1223)%Z then 204%Z else req_status))
             as [Hle|Hlt]) | | | ];
    intros Heq; try discriminate Heq; injection Heq as <- <- <-;
    (split; [|split; [|split]]); intros Hx; try discriminate Hx;
    try (now contradiction Hx); repeat split; auto.
Qed.

Lemma rejection_tells_cause_witness :
  Load = Load /\ "<html>" <> "" /\ JSON_parse modernHost "<html>" = None
  /\ VNull = VNull.
Proof.
  apply (rejection_tells_cause modernHost Load 200 "<html>" 200 VNull (Some "parseerror"));
    reflexivity.
Defined.

(** ** Dispatching *)

Lemma sendRequest_shape (m p : string) (headers : jsval)
    (entity : option body) (t : option string) :
  sendRequest m p headers entity t =
  exchange m p
    (List.app (callerHeaders headers)
       match t with
       | Some ct => if negb (ct =? "") then [("Content-Type", ct)] else []
       | None => []
       end)
    match entity with
    | Some e => if body_truthy e then Some e else None
    | None => None
    end.
Proof.
  unfold sendRequest; cbv zeta; rewrite after_headers.
  destruct t as [ct|]; [destruct (negb (ct =? ""))|];
    (destruct entity as [e|]; [destruct (body_truthy e)|]); unfold exchange; simpl;
    rewrite ?app_nil_r; reflexivity.
Qed.

(** X3.  Every request announces [Accept: application/json] first, then
    sets the caller's headers, each own property once, in enumeration
    order, with its value as text (none for [null], [undefined] and
    other falsy values), and sets [Content-Type] last, when a non-empty
    type is given. *)
Theorem sendRequest_header_order (m p : string) (headers : jsval)
    (entity : option body) (t : option string) :
  exists own last,
    requestHeaders (sendRequest m p headers entity t)
    = ("Accept", "application/json") :: List.app own last
    /\ (truthy headers = false -> own = [])
    /\ (truthy headers = true ->
        own = map (fun kv => (fst kv, ToString (snd kv))) (own_props headers))
    /\ (t = None \/ t = Some "" -> last = [])
    /\ (forall ct, t = Some ct -> ct <> "" -> last = [("Content-Type", ct)]).
Proof.
  exists (callerHeaders headers),
         (match t with
          | Some ct => if negb (ct =? "") then [("Content-Type", ct)] else []
          | None => []
          end).
  split; [|split; [|split; [|split]]].
  - now rewrite sendRequest_shape.
  - unfold callerHeaders; now intros ->.
  - unfold callerHeaders; now intros ->.
  - intros [-> | ->]; reflexivity.
  - intros ct -> Hct; apply String.eqb_neq in Hct; now rewrite Hct.
Qed.

(** X4.  Every request is sent.  An entity goes with it when one is
    given that is not the empty text; with no entity or the empty text
    the request goes out bare, although a type given with the empty
    text is still announced. *)
Theorem sendRequest_entity_sent (m p : string) (headers : jsval)
    (entity : option body) (t : option string) :
  (entity = None \/ entity = Some (Text "") ->
   sent (sendRequest m p headers entity t) = Some None)
  /\ (forall b, entity = Some b -> b <> Text "" ->
      sent (sendRequest m p headers entity t) = Some (Some b))
  /\ (forall ct, t = Some ct -> ct <> "" ->
      In ("Content-Type", ct) (requestHeaders (sendRequest m p headers entity t))).
Proof.
  rewrite sendRequest_shape; cbn [sent requestHeaders exchange].
  split; [|split].
  - intros [-> | ->]; reflexivity.
  - intros b -> Hb.
    destruct b as [s|f]; [|reflexivity].
    simpl; destruct (String.eqb_spec s "") as [->|]; [now contradiction Hb | reflexivity].
  - intros ct -> Hct; apply String.eqb_neq in Hct; rewrite Hct.
    right; apply in_or_app; right; now left.
Qed.

Lemma sendRequest_entity_sent_witness :
  sent (sendRequest "POST" "/items" VNull (Some (Text "")) (Some urlencoded)) = Some None
  /\ sent (sendRequest "POST" "/items" VNull (Some (Text "a=1")) (Some urlencoded))
     = Some (Some (Text "a=1"))
  /\ In ("Content-Type", urlencoded)
        (requestHeaders (sendRequest "POST" "/items" VNull (Some (Text "")) (Some urlencoded))).
Proof.
  split; [|split].
  - apply (sendRequest_entity_sent "POST" "/items" VNull (Some (Text "")) (Some urlencoded)).
    now right.
  - apply (sendRequest_entity_sent "POST" "/items" VNull (Some (Text "a=1")) (Some urlencoded));
      [reflexivity | discriminate].
  - apply (sendRequest_entity_sent "POST" "/items" VNull (Some (Text "")) (Some urlencoded)
             ) with (ct := urlencoded); [reflexivity | discriminate].
Defined.

(** X5.  [send] with an array or object for [data] asks for the path
    followed by [?] and a query that reads back as the pairs of [data]
    (for the empty object: the path followed by a bare [?]); with any
    other [data] it asks for the path as given.  Either way it sets no
    content type and sends no entity. *)
Theorem send_appends_readable_query (m p : string) (data headers : jsval) :
  (is_object data = true ->
   exists q,
     send m p data headers = exchange m (p ++ "?" ++ q) (callerHeaders headers) None
     /\ parseQuery q = Some (queryPairs (own_props data))
     /\ (own_props data = [] -> q = ""))
  /\ (is_object data = false ->
      send m p data headers = exchange m p (callerHeaders headers) None).
Proof.
  split; intros Hobj.
  - exists (stringifyQuery data); split; [now apply send_query|].
    split; [apply parseQuery_stringifyQuery|].
    unfold stringifyQuery; now intros ->.
  - unfold send; rewrite Hobj; apply sendRequest_bare.
Qed.

Lemma send_appends_readable_query_witness :
  (exists q,
     send "GET" "/find" (VObj [("q", VStr "x y"); ("n", VArr [VNum 1; VNum 2])]) VNull
     = exchange "GET" ("/find" ++ "?" ++ q) [] None
     /\ parseQuery q = Some [("q", "x y"); ("n", "1"); ("n", "2")]
     /\ (own_props (VObj [("q", VStr "x y"); ("n", VArr [VNum 1; VNum 2])]) = [] -> q = ""))
  /\ send "GET" "/find" VUndefined VNull = exchange "GET" "/find" [] None.
Proof.
  split.
  - apply (send_appends_readable_query "GET" "/find"
             (VObj [("q", VStr "x y"); ("n", VArr [VNum 1; VNum 2])]) VNull).
    reflexivity.
  - apply (send_appends_readable_query "GET" "/find" VUndefined VNull).
    reflexivity.
Defined.

(** X6.  [get] and [del] set none of the caller's headers and send no
    entity, whatever [data] and [headers] are: the only header is
    [Accept].  An array or object given as [headers] is written into
    the query string instead; with any other [headers] the path is
    asked for as given. *)
Theorem get_del_spend_headers_on_query (p : string) (data headers : jsval) :
  requestHeaders (get p data headers) = [("Accept", "application/json")]
  /\ requestHeaders (del p data headers) = [("Accept", "application/json")]
  /\ sent (get p data headers) = Some None
  /\ sent (del p data headers) = Some None
  /\ (is_object headers = true ->
      opened (get p data headers) = Some ("GET", p ++ "?" ++ stringifyQuery headers)
      /\ opened (del p data headers) = Some ("DELETE", p ++ "?" ++ stringifyQuery headers))
  /\ (is_object headers = false ->
      opened (get p data headers) = Some ("GET", p)
      /\ opened (del p data headers) = Some ("DELETE", p)).
Proof.
  unfold get, del, send.
  rewrite !sendRequest_bare; cbn [requestHeaders sent opened exchange callerHeaders truthy].
  do 4 (split; [reflexivity|]).
  split; intros ->; split; reflexivity.
Qed.

Lemma get_del_spend_headers_on_query_witness :
  opened (get "/items" (VObj [("a", VNum 1)]) (VObj [("X-Token", VStr "t")]))
  = Some ("GET", "/items?X-Token=t")
  /\ opened (del "/items" (VObj [("a", VNum 1)]) VUndefined) = Some ("DELETE", "/items").
Proof.
  split.
  - apply (get_del_spend_headers_on_query "/items" (VObj [("a", VNum 1)])
             (VObj [("X-Token", VStr "t")])); reflexivity.
  - apply (get_del_spend_headers_on_query "/items" (VObj [("a", VNum 1)]) VUndefined);
      reflexivity.
Defined.

(** ** More on the query encoder *)

(** X7.  Two objects with the same query string have the same pairs of
    key and value text, item by item and in the same order: the query
    string determines what was encoded, up to the text of the values. *)
Theorem stringifyQuery_determines_pairs (a b : jsval) :
  stringifyQuery a = stringifyQuery b ->
  queryPairs (own_props a) = queryPairs (own_props b).
Proof.
  intros H.
  assert (E : parseQuery (stringifyQuery a) = parseQuery (stringifyQuery b))
    by now rewrite H.
  rewrite !parseQuery_stringifyQuery in E; now injection E.
Qed.

Lemma stringifyQuery_determines_pairs_witness :
  queryPairs (own_props (VObj [("a", VNum 1); ("b", VNull)]))
  = queryPairs (own_props (VObj [("a", VStr "1"); ("b", VStr "null")])).
Proof.
  apply (stringifyQuery_determines_pairs
           (VObj [("a", VNum 1); ("b", VNull)])
           (VObj [("a", VStr "1"); ("b", VStr "null")])).
  reflexivity.
Defined.

(** X8.  An array-valued property of [N] items gives exactly [N] pairs
    under its key, in the order of the array, between the pairs of the
    properties before it and those of the properties after it; so the
    query string reads back. *)
Theorem array_property_gives_one_pair_per_item
    (before after : list (string * jsval)) (k : string) (items : list jsval) :
  parseQuery (stringifyQuery (VObj (List.app before ((k, VArr items) :: after))))
  = Some (List.app (queryPairs before)
            (List.app (map (fun item => (k, ToString item)) items) (queryPairs after))).
Proof.
  rewrite parseQuery_stringifyQuery; cbn [own_props].
  unfold queryPairs at 1; rewrite flat_map_app; cbn [flat_map snd fst].
  reflexivity.
Qed.

(** X9.  A property whose value is the empty array leaves no trace: the
    query string is that of the object without the property, and an
    object with no other properties has the empty query string. *)
Theorem empty_array_property_vanishes
    (before after : list (string * jsval)) (k : string) :
  stringifyQuery (VObj (List.app before ((k, VArr []) :: after)))
  = stringifyQuery (VObj (List.app before after))
  /\ stringifyQuery (VObj [(k, VArr [])]) = "".
Proof.
  split; [|reflexivity].
  rewrite !stringifyQuery_segments; cbn [own_props].
  now rewrite !querySegments_app, querySegments_cons.
Qed.

Lemma allChars_app (P : ascii -> bool) (a b : string) :
  allChars P (a ++ b) = allChars P a && allChars P b.
Proof.
  induction a as [|c a IH]; simpl; [reflexivity|].
  now rewrite IH, andb_assoc.
Qed.

Lemma encodeChar_safe (c : ascii) : allChars querySafe (encodeChar c) = true.
Proof. each_octet c; reflexivity. Qed.

Lemma enc_safe (s : string) : allChars querySafe (enc s) = true.
Proof.
  unfold enc; induction s as [|c s IH]; [reflexivity|].
  cbn [encodeURIComponent]; now rewrite allChars_app, encodeChar_safe, IH.
Qed.

Lemma join_safe (items : list string) :
  Forall (fun s => allChars querySafe s = true) items ->
  allChars querySafe (join "&" items) = true.
Proof.
  induction items as [|x [|y ys] IH]; intros H; [reflexivity | now inversion H |].
  inversion H as [|? ? Hx Hrest]; subst.
  change (join "&" (x :: y :: ys)) with (x ++ String "&" (join "&" (y :: ys))).
  rewrite allChars_app, Hx; cbn [allChars]; now rewrite (IH Hrest).
Qed.

(** X10.  The query string of any object is made of letters, digits,
    the marks [- _ . ! ~ * ' ( )] and [%], [&] and [=] only: no space,
    [#], [?], [+] or [/] comes out, whatever the keys and values hold. *)
Theorem stringifyQuery_alphabet (object : jsval) :
  allChars querySafe (stringifyQuery object) = true.
Proof.
  rewrite stringifyQuery_segments, querySegments_pairs.
  apply join_safe, Forall_forall; intros s Hs.
  apply in_map_iff in Hs as [[k v] [<- _]]; cbn [fst snd].
  rewrite !allChars_app, !enc_safe; reflexivity.
Qed.

Lemma join_app (a b : list string) :
  a <> [] -> b <> [] ->
  join "&" (List.app a b) = join "&" a ++ "&" ++ join "&" b.
Proof.
  intros Ha Hb; induction a as [|x [|y ys] IH]; [now contradiction Ha | |].
  - destruct b; [now contradiction Hb | reflexivity].
  - change (join "&" (List.app (x :: y :: ys) b))
      with (x ++ "&" ++ join "&" (List.app (y :: ys) b)).
    rewrite IH by discriminate.
    change (join "&" (x :: y :: ys)) with (x ++ "&" ++ join "&" (y :: ys)).
    now rewrite !append_assoc.
Qed.

Lemma segments_of_nonempty_query (props : list (string * jsval)) :
  stringifyQuery (VObj props) <> "" -> querySegments props <> [].
Proof.
  rewrite stringifyQuery_segments; cbn [own_props].
  intros H E; rewrite E in H; now contradiction H.
Qed.

Lemma query_of_no_segments (props : list (string * jsval)) :
  stringifyQuery (VObj props) = "" -> querySegments props = [].
Proof.
  rewrite stringifyQuery_segments; cbn [own_props]; rewrite querySegments_pairs.
  destruct (queryPairs props) as [|[k v] [|q qs]]; [reflexivity | |];
    cbn [map join fst snd]; intros H.
  - pose proof (segment_nonempty k v) as E; rewrite H in E; discriminate.
  - apply (f_equal (occurs "=")) in H; rewrite !occurs_app in H; simpl in H.
    destruct (occurs "=" (enc k)); discriminate.
Qed.

(** X11.  Putting the properties of two objects together joins their
    query strings with [&]; when one of the two query strings is empty
    the result is the other one, with no stray [&]. *)
Theorem stringifyQuery_of_merged_objects (a b : list (string * jsval)) :
  (stringifyQuery (VObj a) <> "" -> stringifyQuery (VObj b) <> "" ->
   stringifyQuery (VObj (List.app a b))
   = stringifyQuery (VObj a) ++ "&" ++ stringifyQuery (VObj b))
  /\ (stringifyQuery (VObj a) = "" ->
      stringifyQuery (VObj (List.app a b)) = stringifyQuery (VObj b))
  /\ (stringifyQuery (VObj b) = "" ->
      stringifyQuery (VObj (List.app a b)) = stringifyQuery (VObj a)).
Proof.
  split; [|split].
  - intros Ha Hb.
    apply segments_of_nonempty_query in Ha, Hb.
    rewrite !stringifyQuery_segments; cbn [own_props].
    rewrite querySegments_app; now apply join_app.
  - intros Ha; apply query_of_no_segments in Ha.
    rewrite !stringifyQuery_segments; cbn [own_props].
    now rewrite querySegments_app, Ha.
  - intros Hb; apply query_of_no_segments in Hb.
    rewrite !stringifyQuery_segments; cbn [own_props].
    now rewrite querySegments_app, Hb, app_nil_r.
Qed.

Lemma stringifyQuery_of_merged_objects_witness :
  stringifyQuery (VObj (List.app [("a", VNum 1)] [("b", VArr [VStr "x"; VStr "y"])]))
  = stringifyQuery (VObj [("a", VNum 1)]) ++ "&"
    ++ stringifyQuery (VObj [("b", VArr [VStr "x"; VStr "y"])])
  /\ stringifyQuery (VObj (List.app [("e", VArr [])] [("a", VNum 1)]))
     = stringifyQuery (VObj [("a", VNum 1)]).
Proof.
  split.
  - apply (stringifyQuery_of_merged_objects
             [("a", VNum 1)] [("b", VArr [VStr "x"; VStr "y"])]); discriminate.
  - apply (stringifyQuery_of_merged_objects [("e", VArr [])] [("a", VNum 1)]).
    reflexivity.
Defined.

(** ** More on forms *)

Lemma namedItem_hasShim (form : HTMLFormElement) :
  (hasShim form = false -> namedItem form "_method" = None)
  /\ (hasShim form = true -> exists node, namedItem form "_method" = Some node).
Proof.
  unfold hasShim, namedItem; induction (elements form) as [|c rest [IHn IHs]].
  - split; [reflexivity | discriminate].
  - cbn [existsb filter].
    destruct ((id c =? "_method") || (name c =? "_method")); cbn [orb].
    + split; [discriminate | intros _; eexists; reflexivity].
    + split; assumption.
Qed.

Lemma sendMultipartForm_cases (h : Host) (form : HTMLFormElement) :
  (hasShim form = true -> sendMultipartForm h form = Throw TypeError)
  /\ (hasShim form = false -> FormData_defined h = false ->
      sendMultipartForm h form = Throw ReferenceError)
  /\ (hasShim form = false -> FormData_defined h = true ->
      sendMultipartForm h form =
      Normal (exchange "POST" (action form) [("Content-Type", "multipart/form-data")]
                (Some (FormData form)))).
Proof.
  destruct (namedItem_hasShim form) as [Hnone Hsome].
  split; [|split].
  - intros Hs; destruct (Hsome Hs) as [node Hnode].
    unfold sendMultipartForm; now rewrite Hnode.
  - intros Hs Hfd; unfold sendMultipartForm, new_FormData.
    now rewrite (Hnone Hs), Hfd.
  - intros Hs Hfd; now apply sendMultipartForm_plain; [apply Hnone|].
Qed.

(** Replace [req] by the request a call is known to return. *)
Ltac returned_request H req :=
  match type of H with
  | Normal (Some ?r) = Normal (Some req) =>
      let E := fresh in assert (E : req = r) by congruence; subst req; clear H
  | Normal ?r = Normal req =>
      let E := fresh in assert (E : req = r) by congruence; subst req; clear H
  end.

(** The four ways a call of [sendForm] ends. *)
Lemma sendForm_cases (h : Host) (form : HTMLFormElement) :
  (hasShim form = true -> sendForm h form = Throw TypeError)
  /\ (hasShim form = false -> needsMultipart form = true -> FormData_defined h = false ->
      sendForm h form = Throw ReferenceError)
  /\ (hasShim form = false -> needsMultipart form = true -> FormData_defined h = true ->
      sendForm h form =
      Normal (Some (exchange "POST" (action form)
                      [("Content-Type", "multipart/form-data")] (Some (FormData form)))))
  /\ (hasShim form = false -> needsMultipart form = false ->
      sendForm h form =
      Normal (if (toUpperCase h (method form) =? "POST")
                 || (toUpperCase h (method form) =? "PUT")
              then Some (sendRequest (toUpperCase h (method form)) (action form) VNull
                           (Some (Text (gatheredText (controlPairs (elements form)))))
                           (Some "application/x-www-form-urlencoded"))
              else if (toUpperCase h (method form) =? "DELETE")
                      || (toUpperCase h (method form) =? "GET")
              then Some (sendRequest (toUpperCase h (method form))
                           (action form ++ "?"
                            ++ gatheredText (controlPairs (elements form)))
                           VUndefined None None)
              else None)).
Proof.
  destruct (namedItem_hasShim form) as [Hnone Hsome].
  destruct (sendMultipartForm_cases h form) as (Mshim & Mref & Mpost).
  split; [|split; [|split]].
  - intros Hs; destruct (Hsome Hs) as [node Hnode].
    now apply sendForm_shim_raises with node.
  - intros Hs Hmp Hfd; now rewrite (sendForm_multipart _ _ Hmp), (Mref Hs Hfd).
  - intros Hs Hmp Hfd; now rewrite (sendForm_multipart _ _ Hmp), (Mpost Hs Hfd).
  - intros Hs Hmp; exact (sendForm_plain h form Hmp (Hnone Hs)).
Qed.

(** X12.  [sendMultipartForm] either raises or posts: a control whose
    name or id is [_method] makes it raise [TypeError], also where
    [FormData] is missing; otherwise a missing [FormData] makes it raise
    [ReferenceError]; otherwise it sends the form's [FormData] to the
    form's action as [multipart/form-data].  Whenever it returns, the
    method is [POST]: the shim never selects [PUT]. *)
Theorem sendMultipartForm_outcomes (h : Host) (form : HTMLFormElement) :
  (hasShim form = true -> sendMultipartForm h form = Throw TypeError)
  /\ (hasShim form = false -> FormData_defined h = false ->
      sendMultipartForm h form = Throw ReferenceError)
  /\ (hasShim form = false -> FormData_defined h = true ->
      sendMultipartForm h form =
      Normal (exchange "POST" (action form) [("Content-Type", "multipart/form-data")]
                (Some (FormData form))))
  /\ (forall req, sendMultipartForm h form = Normal req ->
      opened req = Some ("POST", action form)).
Proof.
  destruct (sendMultipartForm_cases h form) as (Mshim & Mref & Mpost).
  repeat (split; [assumption|]).
  intros req Hreq.
  destruct (hasShim form); [rewrite Mshim in Hreq by reflexivity; discriminate|].
  destruct (FormData_defined h).
  - rewrite Mpost in Hreq by reflexivity; now injection Hreq as <-.
  - rewrite Mref in Hreq by reflexivity; discriminate.
Qed.

Lemma sendMultipartForm_outcomes_witness :
  sendMultipartForm legacyHost shimmedForm = Throw TypeError
  /\ sendMultipartForm legacyHost uploadForm = Throw ReferenceError
  /\ sendMultipartForm modernHost uploadForm =
     Normal (exchange "POST" "/up" [("Content-Type", "multipart/form-data")]
               (Some (FormData uploadForm))).
Proof.
  split; [|split].
  - apply (sendMultipartForm_outcomes legacyHost shimmedForm); reflexivity.
  - apply (sendMultipartForm_outcomes legacyHost uploadForm); reflexivity.
  - apply (sendMultipartForm_outcomes modernHost uploadForm); reflexivity.
Defined.

(** X13.  A form with a control whose name or id is [_method] is never
    sent: in every host, whatever the form declares and whatever the
    control's value, [sendForm] raises [TypeError]. *)
Theorem shim_control_stops_sendForm (h : Host) (form : HTMLFormElement) (c : control) :
  In c (elements form) ->
  name c = "_method" \/ id c = "_method" ->
  sendForm h form = Throw TypeError.
Proof.
  intros Hin Hc.
  apply (sendForm_cases h form); unfold hasShim.
  apply existsb_exists; exists c; split; [exact Hin|].
  destruct Hc as [-> | ->]; rewrite String.eqb_refl; [apply orb_true_r | reflexivity].
Qed.

Lemma shim_control_stops_sendForm_witness :
  sendForm modernHost shimmedForm = Throw TypeError.
Proof.
  apply (shim_control_stops_sendForm modernHost shimmedForm
           (input "_method" "hidden" "DELETE")); [now left | now left].
Defined.

(** X14.  Whenever [sendForm] returns a request, the form has no
    [_method] control and the request's method is one of [POST], [PUT],
    [DELETE] and [GET]: on the multipart path it is a [POST] of the
    form's [FormData] to the form's action, otherwise the method is the
    form's declared method in upper case. *)
Theorem sendForm_sends_known_methods (h : Host) (form : HTMLFormElement)
    (req : XMLHttpRequest) :
  sendForm h form = Normal (Some req) ->
  exists m p,
    opened req = Some (m, p)
    /\ knownMethod m = true
    /\ hasShim form = false
    /\ (needsMultipart form = true ->
        m = "POST" /\ p = action form /\ sent req = Some (Some (FormData form)))
    /\ (needsMultipart form = false -> m = toUpperCase h (method form)).
Proof.
  destruct (sendForm_cases h form) as (Sshim & Sref & Spost & Splain).
  intros Hreq.
  destruct (hasShim form); [rewrite Sshim in Hreq by reflexivity; discriminate|].
  destruct (needsMultipart form).
  - destruct (FormData_defined h);
      [|rewrite Sref in Hreq by reflexivity; discriminate].
    rewrite Spost in Hreq by reflexivity; injection Hreq as <-.
    exists "POST", (action form); repeat split; try reflexivity; discriminate.
  - rewrite Splain in Hreq by reflexivity.
    unfold knownMethod.
    destruct ((toUpperCase h (method form) =? "POST")
              || (toUpperCase h (method form) =? "PUT")) eqn:E1.
    + returned_request Hreq req.
      exists (toUpperCase h (method form)), (action form).
      rewrite sendRequest_opened; split; [reflexivity|].
      split; [now rewrite E1|repeat split; try reflexivity; discriminate].
    + destruct ((toUpperCase h (method form) =? "DELETE")
                || (toUpperCase h (method form) =? "GET")) eqn:E2; [|discriminate].
      returned_request Hreq req.
      eexists (toUpperCase h (method form)), _.
      rewrite sendRequest_opened; split; [reflexivity|].
      split; [|repeat split; try reflexivity; discriminate].
      rewrite <- orb_assoc, E1; exact E2.
Qed.

Lemma sendForm_sends_known_methods_witness :
  exists m p,
    opened (exchange "GET" "/find?q=x%20y" [] None) = Some (m, p)
    /\ knownMethod m = true
    /\ hasShim searchForm = false
    /\ (needsMultipart searchForm = true ->
        m = "POST" /\ p = action searchForm
        /\ sent (exchange "GET" "/find?q=x%20y" [] None) = Some (Some (FormData searchForm)))
    /\ (needsMultipart searchForm = false -> m = toUpperCase modernHost (method searchForm)).
Proof.
  apply (sendForm_sends_known_methods modernHost searchForm
           (exchange "GET" "/find?q=x%20y" [] None)).
  reflexivity.
Defined.

(** X15.  A form that gathers no pair (no controls, or only multiple
    selects with nothing selected) is still sent: with [POST] or [PUT]
    the request announces the urlencoded content type and carries no
    entity; with [DELETE] or [GET] the path is the action followed by a
    bare [?]. *)
Theorem sendForm_without_pairs (h : Host) (form : HTMLFormElement) :
  needsMultipart form = false ->
  hasShim form = false ->
  controlPairs (elements form) = [] ->
  (toUpperCase h (method form) = "POST" \/ toUpperCase h (method form) = "PUT" ->
   sendForm h form =
   Normal (Some (exchange (toUpperCase h (method form)) (action form)
                   [("Content-Type", "application/x-www-form-urlencoded")] None)))
  /\ (toUpperCase h (method form) = "DELETE" \/ toUpperCase h (method form) = "GET" ->
      sendForm h form =
      Normal (Some (exchange (toUpperCase h (method form)) (action form ++ "?") [] None))).
Proof.
  intros Hmp Hshim Hpairs.
  destruct (sendForm_cases h form) as (_ & _ & _ & Splain).
  rewrite (Splain Hshim Hmp), Hpairs; clear Splain.
  split; intros [-> | ->]; cbn [String.eqb Ascii.eqb Bool.eqb orb andb];
    rewrite sendRequest_shape; reflexivity.
Qed.

Lemma sendForm_without_pairs_witness :
  sendForm modernHost
    {| action := "/ping"; method := "post"; enctype := urlencoded;
       elements := [selectMultiple "c" [(false, "r")]] |}
  = Normal (Some (exchange "POST" "/ping"
                    [("Content-Type", "application/x-www-form-urlencoded")] None))
  /\ sendForm modernHost
       {| action := "/ping"; method := "get"; enctype := urlencoded; elements := [] |}
     = Normal (Some (exchange "GET" "/ping?" [] None)).
Proof.
  split.
  - apply (sendForm_without_pairs modernHost
             {| action := "/ping"; method := "post"; enctype := urlencoded;
                elements := [selectMultiple "c" [(false, "r")]] |});
      try reflexivity; now left.
  - apply (sendForm_without_pairs modernHost
             {| action := "/ping"; method := "get"; enctype := urlencoded;
                elements := [] |});
      try reflexivity; now right.
Defined.

Lemma decode_enc_app (a s : string) :
  decodeURIComponent (enc a ++ s) =
  match decodeURIComponent s with
  | Some r => Some (a ++ r)
  | None => None
  end.
Proof.
  unfold enc; induction a as [|c a IH]; cbn [encodeURIComponent append].
  - now destruct (decodeURIComponent s).
  - rewrite append_assoc, decode_encodeChar, IH.
    now destruct (decodeURIComponent s).
Qed.

Lemma decode_equals_sign (s : string) :
  decodeURIComponent (String "=" s) =
  match decodeURIComponent s with
  | Some r => Some (String "=" r)
  | None => None
  end.
Proof. reflexivity. Qed.

Lemma decode_gatheredText (pairs : list (string * string)) :
  decodeURIComponent (gatheredText pairs) = Some (rawText pairs).
Proof.
  unfold gatheredText, rawText; induction pairs as [|[k v] ps IH]; [reflexivity|].
  cbn [map fst snd]; rewrite !join_cons, !append_assoc, decode_enc_app.
  change ("=" ++ enc v ++ join "" (map (fun p => enc (fst p) ++ "=" ++ enc (snd p)) ps))
    with (String "=" (enc v ++ join "" (map (fun p => enc (fst p) ++ "=" ++ enc (snd p)) ps))).
  now rewrite decode_equals_sign, decode_enc_app, IH.
Qed.

(** X16.  What a receiver reads from the entity of a posted form: the
    pairs are written one after the other with nothing between them, so
    the entity reads back as a single field, named like the first pair,
    whose value is the first value followed by the other pairs as
    [name=value] texts; for a form with one pair that is the pair
    itself. *)
Theorem posted_form_reads_as_one_field (h : Host) (form : HTMLFormElement)
    (k v : string) (others : list (string * string)) :
  needsMultipart form = false ->
  hasShim form = false ->
  controlPairs (elements form) = (k, v) :: others ->
  toUpperCase h (method form) = "POST" \/ toUpperCase h (method form) = "PUT" ->
  exists text,
    sendForm h form =
    Normal (Some (exchange (toUpperCase h (method form)) (action form)
                    [("Content-Type", "application/x-www-form-urlencoded")]
                    (Some (Text text))))
    /\ parseQuery text = Some [(k, v ++ rawText others)].
Proof.
  intros Hmp Hshim Hpairs Hm.
  destruct (sendForm_cases h form) as (_ & _ & _ & Splain).
  rewrite (Splain Hshim Hmp), Hpairs; clear Splain.
  set (text := gatheredText ((k, v) :: others)).
  assert (Etext : text = enc k ++ String "=" (enc v ++ gatheredText others)).
  { unfold text, gatheredText; cbn [map fst snd].
    rewrite join_cons, !append_assoc; reflexivity. }
  assert (Hne : text <> "").
  { rewrite Etext; intros E; apply (f_equal (occurs "=")) in E.
    rewrite occurs_app in E; simpl in E.
    destruct (occurs "=" (enc k)); discriminate. }
  exists text; split.
  - assert (E : (toUpperCase h (method form) =? "POST")
                || (toUpperCase h (method form) =? "PUT") = true).
    { destruct Hm as [-> | ->]; reflexivity. }
    rewrite E, sendRequest_entity; [reflexivity | | discriminate].
    simpl; apply String.eqb_neq in Hne; now rewrite Hne.
  - unfold parseQuery.
    rewrite (split_clean "&" text) by apply gatheredText_clean.
    cbn [filter]; apply String.eqb_neq in Hne; rewrite Hne; cbn [negb decodePairs].
    unfold decodePair; rewrite Etext, cut_app by apply enc_clean.
    now rewrite decode_enc, decode_enc_app, decode_gatheredText.
Qed.

Lemma posted_form_reads_as_one_field_witness :
  exists text,
    sendForm modernHost twoFields =
    Normal (Some (exchange "POST" "/items"
                    [("Content-Type", "application/x-www-form-urlencoded")]
                    (Some (Text text))))
    /\ parseQuery text = Some [("a", "1b=2")].
Proof.
  apply (posted_form_reads_as_one_field modernHost twoFields "a" "1" [("b", "2")]);
    try reflexivity; now left.
Defined.

(** ** The capability check against the send *)

(** X17.  Used as a condition, [canSendForm] tells whether [FormData]
    exists and nothing else: its result is truthy exactly in a host
    that has [FormData], whatever the form. *)
Theorem canSendForm_truthy_iff_FormData (h : Host) (form : HTMLFormElement) :
  truthy (canSendForm h form) = FormData_defined h.
Proof.
  destruct (canSendForm_cases h form) as (Htrue & Hfalse & Hundef).
  destruct (FormData_defined h); [now rewrite Htrue|].
  destruct (needsMultipart form); [now rewrite Hfalse | now rewrite Hundef].
Qed.

Lemma canSendForm_false_cases (h : Host) (form : HTMLFormElement) :
  canSendForm h form = VBool false <->
  FormData_defined h = false /\ needsMultipart form = true.
Proof.
  destruct (canSendForm_cases h form) as (Htrue & Hfalse & Hundef).
  destruct (FormData_defined h); [rewrite Htrue by reflexivity|];
    [split; [discriminate | intros [? _]; discriminate]|].
  destruct (needsMultipart form);
    [rewrite Hfalse by reflexivity | rewrite Hundef by reflexivity];
    split; auto; try discriminate; intros [_ ?]; discriminate.
Qed.

(** X18.  The check is sound where it says no: a form for which
    [canSendForm] returns [false] is not sent by [sendForm], which
    raises an exception instead of returning a request. *)
Theorem refused_form_is_not_sent (h : Host) (form : HTMLFormElement) :
  canSendForm h form = VBool false ->
  sendForm h form = Throw ReferenceError \/ sendForm h form = Throw TypeError.
Proof.
  intros Hno; apply canSendForm_false_cases in Hno as [Hfd Hmp].
  destruct (sendForm_cases h form) as (Sshim & Sref & _ & _).
  destruct (hasShim form); [right; now apply Sshim | left; now apply Sref].
Qed.

Lemma refused_form_is_not_sent_witness :
  sendForm legacyHost uploadForm = Throw ReferenceError
  \/ sendForm legacyHost uploadForm = Throw TypeError.
Proof. apply (refused_form_is_not_sent legacyHost uploadForm); reflexivity. Defined.

(** X19.  [sendForm] raises [ReferenceError] exactly for the forms
    [canSendForm] refuses that have no [_method] control; in
    particular a form the check does not refuse never fails for want of
    [FormData]. *)
Theorem sendForm_ReferenceError_iff_refused (h : Host) (form : HTMLFormElement) :
  sendForm h form = Throw ReferenceError <->
  canSendForm h form = VBool false /\ hasShim form = false.
Proof.
  rewrite canSendForm_false_cases.
  destruct (sendForm_cases h form) as (Sshim & Sref & Spost & Splain).
  destruct (hasShim form).
  - rewrite Sshim by reflexivity; split; [discriminate | intros [_ ?]; discriminate].
  - destruct (needsMultipart form).
    + destruct (FormData_defined h).
      * rewrite Spost by reflexivity.
        split; [discriminate | intros [[? _] _]; discriminate].
      * rewrite Sref by reflexivity; split; auto.
    + rewrite Splain by reflexivity.
      split; [|intros [[_ ?] _]; discriminate].
      destruct (_ || _); [discriminate|]; destruct (_ || _); discriminate.
Qed.
